(** * Reflexion Mirror: the narrative and symbolic-fingerprint pipeline

    A shallow embedding of the pure text functions of
    [reflexion_mirror_app.py] (theme extraction, narrative assembly,
    compressed summary, Reflexion DNA, share code) together with the
    Python runtime operations they call, and the properties of the
    specification proved about them. *)

From Stdlib Require Import Strings.String Strings.Ascii Strings.Byte.
From Stdlib Require Import Numbers.DecimalString Numbers.DecimalZ.
From Stdlib Require Import NArith ZArith Bool Lia List.
From Stdlib Require DecimalFacts DecimalPos.
Import ListNotations.

Set Implicit Arguments.

(* ===================================================================== *)
(** * Python strings *)
(* ===================================================================== *)

(** A Python [str] is a sequence of Unicode code points; a [bytes] object
    is a sequence of octets. *)
Definition char := N.
Definition str := list char.
Definition bytes := list byte.

(** [s[:n]]: the first [n] code points (all of [s] when it is shorter). *)
Definition slice_to (n : nat) (s : str) : str := firstn n s.

(** [s[-n:]] for [n > 0]: the last [n] code points (all of [s] when it is
    shorter). *)
Definition slice_last (n : nat) (s : str) : str := skipn (length s - n) s.

(** Truthiness of a string in a condition: the empty string is false. *)
Definition truthy (s : str) : bool :=
  match s with
  | [] => false
  | _ :: _ => true
  end.

Fixpoint str_eqb (a b : str) : bool :=
  match a, b with
  | [], [] => true
  | x :: a', y :: b' => (x =? y)%N && str_eqb a' b'
  | _, _ => false
  end.

(** [sep.join(parts)] *)
Fixpoint join (sep : str) (parts : list str) : str :=
  match parts with
  | [] => []
  | [p] => p
  | p :: rest => p ++ sep ++ join sep rest
  end.

(** ** Substring test: [needle in hay] *)

Fixpoint starts_with (p s : str) : bool :=
  match p, s with
  | [], _ => true
  | x :: p', y :: s' => (x =? y)%N && starts_with p' s'
  | _ :: _, [] => false
  end.

Fixpoint str_in (needle hay : str) : bool :=
  starts_with needle hay ||
  match hay with
  | [] => false
  | _ :: hay' => str_in needle hay'
  end.

(** ** Whitespace: [str.isspace], [str.strip()], [str.split()] *)

(** The code points Python treats as whitespace when stripping and
    splitting without an argument. *)
Definition isspace (c : char) : bool :=
  ((9 <=? c) && (c <=? 13) || (28 <=? c) && (c <=? 32)
   || (c =? 133) || (c =? 160) || (c =? 5760)
   || (8192 <=? c) && (c <=? 8202)
   || (c =? 8232) || (c =? 8233) || (c =? 8239) || (c =? 8287)
   || (c =? 12288))%N.

Fixpoint lstrip (s : str) : str :=
  match s with
  | [] => []
  | c :: s' => if isspace c then lstrip s' else s
  end.

Definition rstrip (s : str) : str := rev (lstrip (rev s)).

Definition strip (s : str) : str := rstrip (lstrip s).

(** [split_from cur s]: the words of [s], where [cur] holds, reversed,
    the characters of the word being read. *)
Fixpoint split_from (cur : str) (s : str) : list str :=
  match s with
  | [] => match cur with [] => [] | _ :: _ => [rev cur] end
  | c :: s' =>
      if isspace c then
        match cur with
        | [] => split_from [] s'
        | _ :: _ => rev cur :: split_from [] s'
        end
      else split_from (c :: cur) s'
  end.

(** [s.split()]: maximal runs of non-whitespace characters. *)
Definition split (s : str) : list str := split_from [] s.

(** ** String literals of the source file *)

(** The source file is UTF-8: a literal denotes the code points its
    bytes decode to. *)
Fixpoint utf8_decode (bs : list N) : str :=
  (match bs with
   | [] => []
   | b0 :: t0 =>
       if b0 <? 128 then b0 :: utf8_decode t0
       else
         match t0 with
         | [] => [b0]
         | b1 :: t1 =>
             if b0 <? 224 then (b0 mod 32 * 64 + b1 mod 64) :: utf8_decode t1
             else
               match t1 with
               | [] => [b0; b1]
               | b2 :: t2 =>
                   if b0 <? 240 then
                     (b0 mod 16 * 4096 + b1 mod 64 * 64 + b2 mod 64)
                       :: utf8_decode t2
                   else
                     match t2 with
                     | [] => [b0; b1; b2]
                     | b3 :: t3 =>
                         (b0 mod 8 * 262144 + b1 mod 64 * 4096
                          + b2 mod 64 * 64 + b3 mod 64) :: utf8_decode t3
                     end
               end
         end
   end)%N.

Definition lit (s : string) : str :=
  utf8_decode (map Byte.to_N (list_byte_of_string s)).

Definition nl : str := [10%N].

(** ** [str.encode()]: UTF-8, strict *)

Definition octet (n : N) : byte :=
  match Byte.of_N n with
  | Some b => b
  | None => x00
  end.

(** One code point; a lone surrogate raises [UnicodeEncodeError]. *)
Definition encode_char (c : char) : option bytes :=
  (if c <? 128 then Some [octet c]
   else if c <? 2048 then Some [octet (192 + c / 64); octet (128 + c mod 64)]
   else if (55296 <=? c) && (c <=? 57343) then None
   else if c <? 65536 then
     Some [octet (224 + c / 4096); octet (128 + c / 64 mod 64);
           octet (128 + c mod 64)]
   else if c <? 1114112 then
     Some [octet (240 + c / 262144); octet (128 + c / 4096 mod 64);
           octet (128 + c / 64 mod 64); octet (128 + c mod 64)]
   else None)%N.

Fixpoint encode (s : str) : option bytes :=
  match s with
  | [] => Some []
  | c :: s' =>
      match encode_char c, encode s' with
      | Some b, Some bs => Some (b ++ bs)
      | _, _ => None
      end
  end.

(** ** [str(n)] for an integer [n] *)

Definition str_of_int (z : Z) : str :=
  map N_of_ascii (list_ascii_of_string (NilZero.string_of_int (Z.to_int z))).

(** ** Letter case *)

Definition is_ascii (s : str) : Prop := Forall (fun c => (c < 128)%N) s.

Definition ascii_upper_letter (c : char) : bool := ((65 <=? c) && (c <=? 90))%N.
Definition ascii_lower_letter (c : char) : bool := ((97 <=? c) && (c <=? 122))%N.

Definition lower_char (c : char) : char :=
  if ascii_upper_letter c then (c + 32)%N else c.

Definition upper_char (c : char) : char :=
  if ascii_lower_letter c then (c - 32)%N else c.

(** [str.title()] on ASCII text: a letter that follows a letter is
    lowercased, any other letter is uppercased. *)
Fixpoint title_from (prev_cased : bool) (s : str) : str :=
  match s with
  | [] => []
  | c :: s' =>
      if ascii_upper_letter c || ascii_lower_letter c then
        (if prev_cased then lower_char c else upper_char c)
          :: title_from true s'
      else c :: title_from false s'
  end.

(** [str.lower()], [str.upper()] and [str.title()] follow the Unicode
    character database of the interpreter, which is no part of the
    program.  The program is verified against any case mapping that
    behaves on ASCII text as Python's does. *)
Class Casing : Type := {
  lower : str -> str;
  upper : str -> str;
  title : str -> str;
  lower_ascii : forall s, is_ascii s -> lower s = map lower_char s;
  upper_ascii : forall s, is_ascii s -> upper s = map upper_char s;
  title_ascii : forall s, is_ascii s -> title s = title_from false s
}.

(** The case mapping that touches ASCII letters only. *)
#[export] Instance ascii_casing : Casing := {|
  lower := map lower_char;
  upper := map upper_char;
  title := title_from false;
  lower_ascii := fun s _ => eq_refl;
  upper_ascii := fun s _ => eq_refl;
  title_ascii := fun s _ => eq_refl
|}.

(* ===================================================================== *)
(** * [hashlib.sha256] *)
(* ===================================================================== *)

(** SHA-256 as in FIPS 180-4, on 32-bit words held in [N]. *)
Module SHA256.

Definition word_mask : N := 0xffffffff.

Definition wrap (x : N) : N := N.land x word_mask.

Definition plus32 (x y : N) : N := wrap (x + y).

Definition rotr (k x : N) : N :=
  N.lor (N.shiftr x k) (wrap (N.shiftl x (32 - k))).

Definition choose (x y z : N) : N :=
  N.lxor (N.land x y) (N.land (N.lxor x word_mask) z).

Definition majority (x y z : N) : N :=
  N.lxor (N.lxor (N.land x y) (N.land x z)) (N.land y z).

Definition xor3 (x y z : N) : N := N.lxor (N.lxor x y) z.

Definition big_sigma0 (x : N) : N := xor3 (rotr 2 x) (rotr 13 x) (rotr 22 x).
Definition big_sigma1 (x : N) : N := xor3 (rotr 6 x) (rotr 11 x) (rotr 25 x).
Definition small_sigma0 (x : N) : N := xor3 (rotr 7 x) (rotr 18 x) (N.shiftr x 3).
Definition small_sigma1 (x : N) : N := xor3 (rotr 17 x) (rotr 19 x) (N.shiftr x 10).

(** The first 64 prime numbers. *)
Definition primes : list N :=
  [
   2; 3; 5; 7; 11; 13; 17; 19; 23; 29; 31; 37;
   41; 43; 47; 53; 59; 61; 67; 71; 73; 79; 83; 89;
   97; 101; 103; 107; 109; 113; 127; 131; 137; 139; 149; 151;
   157; 163; 167; 173; 179; 181; 191; 193; 197; 199; 211; 223;
   227; 229; 233; 239; 241; 251; 257; 263; 269; 271; 277; 281;
   283; 293; 307; 311
  ]%N.

(** The integer part of the cube root of [n], found bit by bit from bit
    [bits - 1] down: [r] holds the bits decided so far. *)
Fixpoint cube_root_from (bits : nat) (n r : N) : N :=
  match bits with
  | O => r
  | S bits' =>
      let r' := (r + 2 ^ N.of_nat bits')%N in
      cube_root_from bits' n (if (r' * r' * r' <=? n)%N then r' else r)
  end.

(** The first 32 bits of the fractional part of the cube root, and of the
    square root, of [p]. *)
Definition cube_root_fraction (p : N) : N :=
  (cube_root_from 36 (p * 2 ^ 96) 0 mod 2 ^ 32)%N.

Definition square_root_fraction (p : N) : N :=
  (N.sqrt (p * 2 ^ 64) mod 2 ^ 32)%N.

(** The round constants come from the cube roots of the first 64 primes,
    the initial hash value from the square roots of the first 8. *)
Definition round_constants : list N := map cube_root_fraction primes.

Definition initial_hash : list N := map square_root_fraction (firstn 8 primes).

(** The [k] low-order octets of [x], most significant first. *)
Fixpoint big_endian (k : nat) (x : N) : list N :=
  match k with
  | O => []
  | S k' => (N.shiftr x (8 * N.of_nat k') mod 256)%N :: big_endian k' x
  end.

(** Padding: a one bit, zero bits up to 56 modulo 64 octets, and the
    message length in bits on 8 octets. *)
Definition pad (msg : list N) : list N :=
  let len := N.of_nat (length msg) in
  let zeros := ((119 - len mod 64) mod 64)%N in
  msg ++ [128%N] ++ repeat 0%N (N.to_nat zeros) ++ big_endian 8 (8 * len)%N.

Fixpoint words_of (bs : list N) : list N :=
  match bs with
  | b0 :: b1 :: b2 :: b3 :: rest =>
      (b0 * 16777216 + b1 * 65536 + b2 * 256 + b3)%N :: words_of rest
  | _ => []
  end.

Fixpoint blocks_of (count : nat) (ws : list N) : list (list N) :=
  match count with
  | O => []
  | S count' => firstn 16 ws :: blocks_of count' (skipn 16 ws)
  end.

(** One more word of the message schedule. *)
Definition extend (w : list N) : list N :=
  let back k := nth (length w - k) w 0%N in
  w ++ [plus32 (plus32 (small_sigma1 (back 2)) (back 7))
               (plus32 (small_sigma0 (back 15)) (back 16))].

Definition schedule (block : list N) : list N := Nat.iter 48 extend block.

Record state : Type := State {
  wa : N; wb : N; wc : N; wd : N; we : N; wf : N; wg : N; wh : N
}.

Definition round (s : state) (kw : N * N) : state :=
  let t1 := plus32 (plus32 (plus32 (wh s) (big_sigma1 (we s)))
                           (choose (we s) (wf s) (wg s)))
                   (plus32 (fst kw) (snd kw)) in
  let t2 := plus32 (big_sigma0 (wa s)) (majority (wa s) (wb s) (wc s)) in
  State (plus32 t1 t2) (wa s) (wb s) (wc s)
        (plus32 (wd s) t1) (we s) (wf s) (wg s).

Definition absorb (h : state) (block : list N) : state :=
  let s := fold_left round (combine round_constants (schedule block)) h in
  State (plus32 (wa h) (wa s)) (plus32 (wb h) (wb s))
        (plus32 (wc h) (wc s)) (plus32 (wd h) (wd s))
        (plus32 (we h) (we s)) (plus32 (wf h) (wf s))
        (plus32 (wg h) (wg s)) (plus32 (wh h) (wh s)).

Definition start : state :=
  match initial_hash with
  | [a; b; c; d; e; f; g; h] => State a b c d e f g h
  | _ => State 0 0 0 0 0 0 0 0
  end.

(** [hashlib.sha256(msg).digest()] *)
Definition digest (msg : bytes) : bytes :=
  let ws := words_of (pad (map Byte.to_N msg)) in
  let s := fold_left absorb (blocks_of (length ws / 16) ws) start in
  map octet
      (flat_map (big_endian 4)
                [wa s; wb s; wc s; wd s; we s; wf s; wg s; wh s]).

Definition hex_digit (d : N) : char :=
  (if d <? 10 then 48 + d else 87 + d)%N.

(** [.hexdigest()]: two lowercase hexadecimal digits per octet. *)
Definition hex (bs : bytes) : str :=
  flat_map (fun b => [hex_digit (Byte.to_N b / 16); hex_digit (Byte.to_N b mod 16)])
           bs.

Definition hexdigest (msg : bytes) : str := hex (digest msg).

End SHA256.

Arguments SHA256.digest : simpl never.
Arguments SHA256.hexdigest : simpl never.

(* ===================================================================== *)
(** * Dictionaries *)
(* ===================================================================== *)

(** A [dict] keeps its keys in insertion order: a list of pairs with no
    repeated key. *)
Section Dict.
Variable V : Type.

Definition dict := list (str * V).

(** [d.get(k)] *)
Fixpoint dict_get (d : dict) (k : str) : option V :=
  match d with
  | [] => None
  | (k', v) :: d' => if str_eqb k' k then Some v else dict_get d' k
  end.

(** [k in d] *)
Definition dict_has (d : dict) (k : str) : bool :=
  match dict_get d k with
  | Some _ => true
  | None => false
  end.

(** [d[k] = v] *)
Fixpoint dict_set (d : dict) (k : str) (v : V) : dict :=
  match d with
  | [] => [(k, v)]
  | (k', v') :: d' =>
      if str_eqb k' k then (k, v) :: d' else (k', v') :: dict_set d' k v
  end.

End Dict.

(** Exceptions: a computation that raises yields [None]. *)
Definition bind {A B : Type} (m : option A) (k : A -> option B) : option B :=
  match m with
  | Some a => k a
  | None => None
  end.

Notation "x <- m ;; k" := (bind m (fun x => k))
  (at level 61, m at next level, right associativity).

(* ===================================================================== *)
(** * The archetype catalog *)
(* ===================================================================== *)

Record archetype_data : Type := {
  description : str;
  symbol : str;
  quote : str;
  color : str
}.

Definition ARCHETYPES : dict archetype_data := [
  (lit "phoenix",
   {| description := lit "Rising from ashes, transformed by fire";
      symbol := lit "üî•";
      quote := lit "What is to give light must endure burning. - Viktor Frankl";
      color := lit "#ff6b6b" |});
  (lit "alchemist",
   {| description := lit "Transmuting pain into wisdom";
      symbol := lit "‚öóÔ∏è";
      quote := lit "One does not become enlightened by imagining figures of light, but by making the darkness conscious. - Carl Jung";
      color := lit "#4ecdc4" |});
  (lit "warrior",
   {| description := lit "Forged in battle, tempered by trials";
      symbol := lit "‚öîÔ∏è";
      quote := lit "The wound is the place where the Light enters you. - Rumi";
      color := lit "#ff9f43" |});
  (lit "sage",
   {| description := lit "Seeking truth through suffering";
      symbol := lit "ü¶â";
      quote := lit "The only true wisdom is in knowing you know nothing. - Socrates";
      color := lit "#a8e6cf" |});
  (lit "wanderer",
   {| description := lit "Lost to find, broken to become whole";
      symbol := lit "üß≠";
      quote := lit "Not all those who wander are lost. - J.R.R. Tolkien";
      color := lit "#c7ceea" |});
  (lit "architect",
   {| description := lit "Building from ruins, designing destiny";
      symbol := lit "üèõÔ∏è";
      quote := lit "In the depth of winter, I finally learned that there was in me an invincible summer. - Albert Camus";
      color := lit "#b2bec3" |});
  (lit "mystic",
   {| description := lit "Embracing the void to find the light";
      symbol := lit "üîÆ";
      quote := lit "The cave you fear to enter holds the treasure you seek. - Joseph Campbell";
      color := lit "#dfe6e9" |});
  (lit "rebel",
   {| description := lit "Destroying to create, refusing to conform";
      symbol := lit "‚ö°";
      quote := lit "You must be ready to burn yourself in your own flame; how could you rise anew if you have not first become ashes? - Nietzsche";
      color := lit "#fd79a8" |})
].

(* ===================================================================== *)
(** * The narrative engine *)
(* ===================================================================== *)

Section Engine.
Context {C : Casing}.

(** The loop [for p in candidates: if p in text: return p]; [None] when
    the loop falls through. *)
Fixpoint first_match (text : str) (candidates : list str) : option str :=
  match candidates with
  | [] => None
  | p :: rest => if str_in p text then Some p else first_match text rest
  end.

(** ** Theme extraction *)

(** [themes[0]] raises [IndexError] on an empty list. *)
Definition extract_core_theme (text : str) (themes : list str) : option str :=
  let text_lower := lower text in
  match first_match text_lower themes with
  | Some theme => Some theme
  | None => nth_error themes 0
  end.

Definition theme_words : dict (list str) := [
  (lit "loss", map lit ["lost"; "gone"; "ended"; "died"]);
  (lit "betrayal", map lit ["betrayed"; "trust"; "lied"; "deceived"]);
  (lit "failure", map lit ["failed"; "mistake"; "wrong"; "error"]);
  (lit "awakening", map lit ["realized"; "understood"; "saw"; "discovered"]);
  (lit "rebuilding", map lit ["built"; "created"; "started"; "began"]);
  (lit "transformation", map lit ["changed"; "became"; "transformed"; "evolved"]);
  (lit "freedom", map lit ["free"; "liberated"; "released"; "escaped"]);
  (lit "integration", map lit ["whole"; "complete"; "integrated"; "unified"])
]%string.

(** [any(keyword in text_lower for keyword in keywords)] *)
Definition any_in (keywords : list str) (text_lower : str) : bool :=
  existsb (fun keyword => str_in keyword text_lower) keywords.

Definition extract_themes (text : str) : list str :=
  let text_lower := lower text in
  let themes :=
    fold_left
      (fun themes item =>
         if any_in (snd item) text_lower then themes ++ [fst item]
         else themes)
      theme_words [] in
  firstn 3 themes.

Definition stop_words : list str :=
  map lit
    ["the"; "a"; "an"; "and"; "or"; "but"; "in"; "on"; "at"; "to"; "for";
     "of"; "with"; "by"; "from"; "was"; "were"; "been"; "be"; "have"; "has";
     "had"; "do"; "does"; "did"; "will"; "would"; "could"; "should"; "may";
     "might"; "must"; "can"; "is"; "are"; "am"; "it"; "i"; "you"; "he";
     "she"; "they"; "we"; "me"; "him"; "her"; "them"; "my"; "your"; "his";
     "its"; "our"; "their"]%string.

(** [w in stop_words] *)
Definition in_set (w : str) (s : list str) : bool := existsb (str_eqb w) s.

Definition extract_keywords (text : str) : str :=
  let words := split (lower text) in
  let keywords :=
    filter (fun w => negb (in_set w stop_words) && (3 <? length w)) words in
  match keywords with
  | [] => lit "the unnamed"
  | _ :: _ => join (lit " ") (firstn 3 keywords)
  end.

Definition get_lost_element (collapse_text : str) : str :=
  let patterns :=
    map lit ["identity"; "certainty"; "control"; "belonging"; "purpose";
             "self"]%string in
  match first_match (lower collapse_text) patterns with
  | Some pattern => pattern
  | None => lit "stability"
  end.

Definition get_emergent_quality (build_text : str) : str :=
  let patterns :=
    map lit ["strength"; "wisdom"; "resilience"; "understanding";
             "compassion"; "power"; "clarity"]%string in
  match first_match (lower build_text) patterns with
  | Some pattern => pattern
  | None => lit "new foundations"
  end.

Definition get_essential_nature (now_text : str) : str :=
  let patterns :=
    map lit ["authenticity"; "wholeness"; "integration"; "transformation";
             "truth"; "freedom"]%string in
  match first_match (lower now_text) patterns with
  | Some pattern => pattern
  | None => lit "irreducible essence"
  end.

(** ** Reflexion DNA and share code *)

(** [combined.encode()] raises on a lone surrogate. *)
Definition generate_transformation_hash (collapse build now : str)
  : option str :=
  let combined := slice_to 50 collapse ++ slice_to 50 build ++ slice_to 50 now in
  data <- encode combined ;;
  Some (slice_to 12 (SHA256.hexdigest data)).

Record reflexion_dna : Type := {
  dna_collapse_root : str;
  dna_emergent_trait : str;
  dna_final_state : str;
  dna_archetype : str;
  dna_theme_chain : list str;
  dna_transformation_hash : str
}.

Definition collapse_themes : list str :=
  map lit ["control"; "identity"; "trust"; "purpose"; "belonging";
           "certainty"]%string.

Definition build_themes : list str :=
  map lit ["resilience"; "wisdom"; "compassion"; "strength"; "clarity";
           "freedom"]%string.

Definition now_themes : list str :=
  map lit ["authentic"; "integrated"; "empowered"; "aligned"; "whole";
           "awakened"]%string.

Definition generate_reflexion_dna (collapse build now archetype : str)
  : option reflexion_dna :=
  collapse_root <- extract_core_theme collapse collapse_themes ;;
  emergent_trait <- extract_core_theme build build_themes ;;
  final_state <- extract_core_theme now now_themes ;;
  let theme_chain :=
    fold_left
      (fun theme_chain text =>
         match extract_themes text with
         | [] => theme_chain
         | first :: _ => theme_chain ++ [first]
         end)
      [collapse; build; now] [] in
  transformation_hash <- generate_transformation_hash collapse build now ;;
  Some {| dna_collapse_root := collapse_root;
          dna_emergent_trait := emergent_trait;
          dna_final_state := final_state;
          dna_archetype := if truthy archetype then archetype else lit "wanderer";
          dna_theme_chain := theme_chain;
          dna_transformation_hash := transformation_hash |}.

(** The [timestamp] argument is represented by [int(timestamp.timestamp())],
    its POSIX time in whole seconds. *)
Definition generate_share_code (reflection_id archetype : str)
  (timestamp : Z) : str :=
  let arch_prefix :=
    if truthy archetype then upper (slice_to 3 archetype) else lit "WND" in
  let time_component := slice_last 4 (str_of_int timestamp) in
  let id_component := upper (slice_to 4 reflection_id) in
  arch_prefix ++ lit "-" ++ time_component ++ lit "-" ++ id_component.

(** ** Narrative *)

Definition collapse_section (collapse : str) : str :=
  (lit "„Äê COLLAPSE „Äë" ++ nl)
    ++ (lit "In the depths of dissolution, you faced the void:" ++ nl)
    ++ strip collapse.

Definition compression_section (build : str) : str :=
  (nl ++ lit "„Äê COMPRESSION „Äë" ++ nl)
    ++ (lit "From the fragments, you forged something new:" ++ nl)
    ++ strip build.

Definition convergence_section (now : str) : str :=
  (nl ++ lit "„Äê CONVERGENCE „Äë" ++ nl)
    ++ (lit "Now, you stand transformed:" ++ nl)
    ++ strip now.

Definition archetype_section (archetype : str) (arch_data : archetype_data)
  : str :=
  nl ++ lit "„Äê ARCHETYPE „Äë" ++ nl ++ lit "You embody the "
     ++ title archetype ++ lit ": " ++ description arch_data ++ nl ++ nl
     ++ quote arch_data.

Definition crystallizing_section : str :=
  nl ++ lit "„Äê ARCHETYPE „Äë" ++ nl
     ++ lit "Your archetype is still crystallizing in the cosmic forge".

(** Every entry of the catalog is a non-empty dictionary, so
    [if arch_data:] holds exactly when the key was found. *)
Definition generate_narrative (collapse build now archetype : str) : str :=
  let sections :=
    [collapse_section collapse; compression_section build;
     convergence_section now] in
  let sections :=
    if truthy archetype then
      match dict_get ARCHETYPES (lower archetype) with
      | Some arch_data => sections ++ [archetype_section archetype arch_data]
      | None => sections ++ [crystallizing_section]
      end
    else sections in
  join (nl ++ nl) sections.

(** ** Compressed summary *)

(** [archetype in ARCHETYPES] and [ARCHETYPES[archetype]] are one lookup
    of the raw key. *)
Definition generate_compressed_summary (collapse build now archetype : str)
  : dict str :=
  let collapse_keywords := extract_keywords collapse in
  let build_keywords := extract_keywords build in
  let now_keywords := extract_keywords now in
  let compressed := [
    (lit "Collapse",
     lit "The dissolution began when " ++ collapse_keywords
       ++ lit " shattered the illusion of " ++ get_lost_element collapse);
    (lit "Compression",
     lit "Through " ++ build_keywords
       ++ lit ", the fragments crystallized into "
       ++ get_emergent_quality build);
    (lit "Convergence",
     lit "Now standing as " ++ now_keywords
       ++ lit ", embodying the truth of " ++ get_essential_nature now)
  ] in
  if truthy archetype then
    match dict_get ARCHETYPES archetype with
    | Some arch_data =>
        dict_set compressed (lit "Archetypal_Pattern")
          (lit "Walking the " ++ archetype ++ lit "'s path: "
             ++ description arch_data)
    | None => compressed
    end
  else compressed.

End Engine.

(* ===================================================================== *)
(** * The specification's reading of the operations *)
(* ===================================================================== *)

Section Reading.
Context {C : Casing}.

(** A string occurs case-insensitively in a text when its lowercasing is
    a substring of the lowercased text. *)
Definition occurs_ci (needle text : str) : bool :=
  str_in (lower needle) (lower text).

(** The first element of [themes], in list order, that occurs
    case-insensitively in [text]; the head of the list when none does. *)
Definition first_occurring_theme (text : str) (themes : list str)
  : option str :=
  match find (fun theme => occurs_ci theme text) themes with
  | Some theme => Some theme
  | None => hd_error themes
  end.

(** An archetype argument resolves case-insensitively to an entry of the
    catalog when it equals the key of the entry up to letter case. *)
Definition resolves_ci (archetype : str) (data : archetype_data) : Prop :=
  exists key, In (key, data) ARCHETYPES /\ lower key = lower archetype.

(** The labels of the theme table one of whose triggers occurs
    case-insensitively in [text], in table order. *)
Definition matching_themes (text : str) : list str :=
  map fst
    (filter (fun item => existsb (fun trigger => occurs_ci trigger text)
                                 (snd item))
            theme_words).

(** The first 12 hexadecimal digits of the SHA-256 digest of the UTF-8
    encoding of the three 50-character prefixes, concatenated. *)
Definition prefix_digest (collapse build now : str) : option str :=
  option_map (fun data => firstn 12 (SHA256.hexdigest data))
             (encode (firstn 50 collapse ++ firstn 50 build ++ firstn 50 now)).

(** A token is removed when it is a stop word or has at most 3
    characters. *)
Definition removed (w : str) : bool :=
  in_set w stop_words || (length w <=? 3).

Definition surviving_tokens (text : str) : list str :=
  filter (fun w => negb (removed w)) (split (lower text)).

Definition keywords_phrase (text : str) : str :=
  match surviving_tokens text with
  | [] => lit "the unnamed"
  | _ :: _ => join (lit " ") (firstn 3 (surviving_tokens text))
  end.

(** The value a successful [extract_core_theme] returns. *)
Definition core_theme (text : str) (themes : list str) : str :=
  match first_match (lower text) themes with
  | Some theme => theme
  | None => hd [] themes
  end.

(** The theme chain of a DNA: the first theme of each phase that has one. *)
Definition chain_of (texts : list str) : list str :=
  fold_left
    (fun theme_chain text =>
       match extract_themes text with
       | [] => theme_chain
       | first :: _ => theme_chain ++ [first]
       end)
    texts [].

(** The three phase sections of every narrative. *)
Definition phase_sections (collapse build now : str) : list str :=
  [collapse_section collapse; compression_section build;
   convergence_section now].

(** The keys of a compressed summary without archetype entry. *)
Definition phase_keys : list str :=
  map lit ["Collapse"; "Compression"; "Convergence"]%string.

End Reading.

(** A text is well formed when it has a UTF-8 encoding, that is, when it
    holds no lone surrogate. *)
Definition well_formed (s : str) : Prop := encode s <> None.

Definition is_asciib (s : str) : bool := forallb (fun c => (c <? 128)%N) s.

(** No string of the list is repeated. *)
Fixpoint distinct (l : list str) : bool :=
  match l with
  | [] => true
  | x :: l' => negb (existsb (str_eqb x) l') && distinct l'
  end.

(* ===================================================================== *)
(** * Shapes of results *)
(* ===================================================================== *)

(** A lowercase hexadecimal digit. *)
Definition is_lower_hex (c : char) : bool :=
  ((48 <=? c) && (c <=? 57) || (97 <=? c) && (c <=? 102))%N.

(** A decimal digit. *)
Definition is_digit (c : char) : bool := ((48 <=? c) && (c <=? 57))%N.

(** [result] is the choice a first-match loop makes among [patterns] in
    [text]: the first pattern that occurs in it, or [default] when none
    occurs. *)
Definition first_pattern_or (result text : str) (patterns : list str)
  (default : str) : Prop :=
  (exists before after,
     patterns = before ++ result :: after
     /\ str_in result text = true
     /\ forall q, In q before -> str_in q text = false)
  \/ (result = default /\ forall q, In q patterns -> str_in q text = false).

(** The pattern lists of [get_lost_element], [get_emergent_quality] and
    [get_essential_nature]. *)
Definition lost_patterns : list str :=
  map lit ["identity"; "certainty"; "control"; "belonging"; "purpose";
           "self"]%string.

Definition emergent_patterns : list str :=
  map lit ["strength"; "wisdom"; "resilience"; "understanding";
           "compassion"; "power"; "clarity"]%string.

Definition essential_patterns : list str :=
  map lit ["authenticity"; "wholeness"; "integration"; "transformation";
           "truth"; "freedom"]%string.

(** A word: a non-empty string without whitespace. *)
Definition is_word (w : str) : Prop :=
  w <> [] /\ forallb (fun c => negb (isspace c)) w = true.

(** The keyword list [extract_keywords] builds before joining. *)
Definition keywords_of {C : Casing} (text : str) : list str :=
  filter (fun w => negb (in_set w stop_words) && (3 <? length w))
         (split (lower text)).

(* ===================================================================== *)
(** * The [/mirror] route *)
(* ===================================================================== *)

(** [request.form.get(key, default)] on the submitted form, a dictionary
    from field names to their values. *)
Definition form_get (form : dict str) (key default : str) : str :=
  match dict_get form key with
  | Some value => value
  | None => default
  end.

(** The values [mirror] computes from a submission: what it stores,
    logs and hands to the template. *)
Record mirror_values : Type := {
  mv_collapse : str;
  mv_build : str;
  mv_now : str;
  mv_archetype : str;
  mv_narrative : str;
  mv_reflexion_dna : reflexion_dna;
  mv_reflection_id : str;
  mv_share_code : str;
  mv_compressed_summary : dict str;
  mv_log_archetype : str;
  mv_word_count : nat * nat * nat;
  mv_archetype_data : option archetype_data;
  mv_email_sent : bool;
  mv_is_public : bool
}.

(** [mirror], without its effects (the database row, the archive file,
    the email and the rendering of the template).  [uuid_text] is
    [str(uuid.uuid4())] and [created_at] the epoch seconds of
    [datetime.now()]; an exception of the DNA generation ends the
    request. *)
Definition mirror {C : Casing} (form : dict str) (uuid_text : str)
  (created_at : Z) : option mirror_values :=
  let collapse := strip (form_get form (lit "collapse") []) in
  let build := strip (form_get form (lit "build") []) in
  let now := strip (form_get form (lit "now") []) in
  let archetype := lower (strip (form_get form (lit "archetype") [])) in
  let email := strip (form_get form (lit "email") []) in
  let is_public :=
    str_eqb (form_get form (lit "is_public") (lit "off")) (lit "on") in
  let narrative := generate_narrative collapse build now archetype in
  reflexion_dna <- generate_reflexion_dna collapse build now archetype ;;
  let reflection_id := slice_to 8 uuid_text in
  let share_code := generate_share_code reflection_id archetype created_at in
  let compressed_summary :=
    generate_compressed_summary collapse build now archetype in
  Some {| mv_collapse := collapse;
          mv_build := build;
          mv_now := now;
          mv_archetype := archetype;
          mv_narrative := narrative;
          mv_reflexion_dna := reflexion_dna;
          mv_reflection_id := reflection_id;
          mv_share_code := share_code;
          mv_compressed_summary := compressed_summary;
          mv_log_archetype :=
            if truthy archetype then archetype else lit "unassigned";
          mv_word_count :=
            (length (split collapse), length (split build),
             length (split now));
          mv_archetype_data := dict_get ARCHETYPES archetype;
          mv_email_sent := truthy email;
          mv_is_public := is_public |}.

(** A submission used in the worked instances: padded phase texts and an
    archetype field in mixed case. *)
Definition sample_form (archetype_field : list (str * str)) : dict str :=
  [(lit "collapse", lit "  I lost my identity ");
   (lit "build", lit "I built resilience");
   (lit "now", lit " I am whole  ")] ++ archetype_field.

(* ===================================================================== *)
(** * The [/explore] and [/collapse-archive] routes *)
(* ===================================================================== *)

(** The excerpt of a phase text that [explore] shows:
    [text[:200] + '...' if len(text) > 200 else text]. *)
Definition excerpt (text : str) : str :=
  if 200 <? length text then slice_to 200 text ++ lit "..." else text.

(** An entry of the archive as the dashboard reads it: the value of its
    [archetype] key, when the entry has that key. *)
Definition archive_entry := option str.

(** [entry.get('archetype', 'unassigned')] *)
Definition entry_archetype (entry : archive_entry) : str :=
  match entry with
  | Some archetype => archetype
  | None => lit "unassigned"
  end.

(** The counting loop of [collapse_archive]:
    [counts[arch] = counts.get(arch, 0) + 1] for every entry. *)
Definition count_archetypes (entries : list archive_entry) : dict nat :=
  fold_left
    (fun counts entry =>
       let arch := entry_archetype entry in
       dict_set counts arch
                (match dict_get counts arch with
                 | Some n => n
                 | None => 0
                 end + 1))
    entries [].

(** [entries[-10:][::-1] if entries else []] *)
Definition recent_entries (A : Type) (entries : list A) : list A :=
  match entries with
  | [] => []
  | _ :: _ => rev (skipn (length entries - 10) entries)
  end.

(** How many entries carry the archetype [key]. *)
Definition occurrences (key : str) (entries : list archive_entry) : nat :=
  length (filter (fun entry => str_eqb (entry_archetype entry) key) entries).

(** The sum of the counts of a dictionary. *)
Definition total (counts : dict nat) : nat :=
  fold_right (fun item sum => snd item + sum) 0 counts.

(* ===================================================================== *)
(** * The collapse archive on disk *)
(* ===================================================================== *)

(** [s.endswith(suffix)] *)
Definition ends_with (suffix s : str) : bool :=
  starts_with (rev suffix) (rev s).

(** [f"{n:03d}"] for a natural number: its decimal writing, filled with
    zeros on the left up to three characters. *)
Definition format_03d (n : nat) : str :=
  let digits := str_of_int (Z.of_nat n) in
  repeat 48%N (3 - length digits) ++ digits.

(** The number a string of decimal digits denotes. *)
Definition decimal_value (s : str) : N :=
  fold_left (fun acc c => (10 * acc + (c - 48))%N) s 0%N.

(** [f"entry_{entry_number:03d}"] *)
Definition entry_id_of (entry_number : nat) : str :=
  lit "entry_" ++ format_03d entry_number.

(** The archive directory [Collapse_Archive]: its file names with the
    contents of the files.  A file written with [json.dump] is read back
    by [json.load] as the same entry. *)
Section Archive.
Variable entry : Type.

Definition archive := dict entry.

(** [[f for f in os.listdir(log_dir) if f.endswith('.json')]] *)
Definition existing_files (dir : archive) : list str :=
  filter (ends_with (lit ".json")) (map fst dir).

(** The entry id [mirror] gives to the next log:
    [f"entry_{len(existing_files) + 1:03d}"]. *)
Definition next_entry_id (dir : archive) : str :=
  entry_id_of (length (existing_files dir) + 1).

(** The name of the file of an entry: [f"collapse_{entry_id}.json"]. *)
Definition log_filename (entry_id : str) : str :=
  lit "collapse_" ++ entry_id ++ lit ".json".

(** The logging step of [mirror]: the entry, built from its id, is
    written to its file, which is created or overwritten. *)
Definition log_collapse (dir : archive) (log_data : str -> entry) : archive :=
  let entry_id := next_entry_id dir in
  dict_set dir (log_filename entry_id) (log_data entry_id).

(** [get_collapse_entry]: the entry of the file of [entry_id], [None]
    (a 404 response) when there is no such file. *)
Definition get_collapse_entry (dir : archive) (entry_id : str)
  : option entry :=
  dict_get dir (log_filename entry_id).

End Archive.

(** The archive holds the logs of [logs], numbered from 1 in order: as
    many JSON files as logs, each the file of one of their numbers, and
    the file of the log of number [i + 1] holds that log. *)
Definition numbered (entry : Type) (dir : archive entry)
  (logs : list (str -> entry)) : Prop :=
  length (existing_files dir) = length logs
  /\ (forall name, In name (existing_files dir) ->
        exists i, i < length logs /\ name = log_filename (entry_id_of (S i)))
  /\ (forall i log, nth_error logs i = Some log ->
        get_collapse_entry dir (entry_id_of (S i))
        = Some (log (entry_id_of (S i)))).

(** [a < b] on strings: the lexicographic order of the code points, by
    which [sorted] arranges the file names of the archive. *)
Fixpoint str_ltb (a b : str) : bool :=
  match a, b with
  | _, [] => false
  | [], _ :: _ => true
  | x :: a', y :: b' => (x <? y)%N || ((x =? y)%N && str_ltb a' b')
  end.

(** The three decimal digits of a number below 1000. *)
Definition three_digits (n : nat) : str :=
  map (fun d => (48 + N.of_nat d)%N) [n / 100; n / 10 mod 10; n mod 10].

(* ===================================================================== *)
(** * The Markdown export *)
(* ===================================================================== *)

(** [replace_from skip old new s] rewrites [s] from the left, the first
    [skip] characters being the rest of an occurrence of [old] already
    replaced. *)
Fixpoint replace_from (skip : nat) (old new s : str) : str :=
  match s with
  | [] => []
  | c :: s' =>
      match skip with
      | S k => replace_from k old new s'
      | O =>
          if starts_with old s
          then new ++ replace_from (length old - 1) old new s'
          else c :: replace_from 0 old new s'
      end
  end.

(** [s.replace(old, new)]: the occurrences of [old] are replaced from
    the left, without overlap; an empty [old] puts [new] before every
    character and at the end. *)
Definition replace (old new s : str) : str :=
  match old with
  | [] => new ++ flat_map (fun c => c :: new) s
  | _ :: _ => replace_from 0 old new s
  end.

(** The opening and the closing bracket of the section headings. *)
Definition opening_bracket : str := lit "„Äê".
Definition closing_bracket : str := lit "„Äë".

(** The first character of both brackets. *)
Definition bracket_start : char := 8222%N.

(** The narrative as the Markdown export of [export_reflection] shows it:
    each opening bracket becomes a level-two heading and a line break
    follows each closing bracket. *)
Definition processed_narrative (narrative : str) : str :=
  replace closing_bracket (closing_bracket ++ nl)
          (replace opening_bracket (lit "## " ++ opening_bracket) narrative).

(** The Markdown document; [created_at] is the text of the stored
    creation time. *)
Definition md_content (narrative created_at reflection_id : str) : str :=
  lit "# Reflexion Mirror - Personal Transformation Narrative" ++ nl ++ nl
    ++ lit "Generated: " ++ created_at ++ lit "  " ++ nl
    ++ lit "ID: " ++ reflection_id ++ nl ++ nl
    ++ lit "---" ++ nl ++ nl
    ++ lit "    " ++ processed_narrative narrative ++ nl ++ nl
    ++ lit "---" ++ nl ++ nl
    ++ lit "*Generated by Reflexion Mirror - A tool for symbolic identity reflection*"
    ++ nl.

(** Both replacements of the export, one after the other. *)
Definition mark_headings (s : str) : str :=
  replace_from 0 closing_bracket (closing_bracket ++ nl)
    (replace_from 0 opening_bracket (lit "## " ++ opening_bracket) s).

(* ===================================================================== *)
(** * Strings: basic facts *)
(* ===================================================================== *)

Lemma str_eqb_eq (a b : str) : str_eqb a b = true <-> a = b.
Proof.
  revert b; induction a as [|x a IH]; intros [|y b]; simpl;
    try (split; (discriminate || reflexivity)).
  rewrite andb_true_iff, N.eqb_eq, IH.
  split; [intros [-> ->]; reflexivity | intros H; inversion H; auto].
Qed.

Lemma str_eqb_refl (a : str) : str_eqb a a = true.
Proof. apply str_eqb_eq; reflexivity. Qed.

Lemma str_eqb_neq (a b : str) : str_eqb a b = false <-> a <> b.
Proof.
  rewrite <- str_eqb_eq. destruct (str_eqb a b); split; congruence.
Qed.

Lemma starts_with_iff (p s : str) :
  starts_with p s = true <-> exists rest, s = p ++ rest.
Proof.
  revert s; induction p as [|x p IH]; intros s; simpl.
  - split; [exists s; reflexivity | reflexivity].
  - destruct s as [|y s].
    + split; [discriminate | intros [r H]; discriminate].
    + rewrite andb_true_iff, N.eqb_eq, IH. split.
      * intros [-> [r ->]]. exists r; reflexivity.
      * intros [r H]. inversion H; subst. split; [reflexivity | eauto].
Qed.

(** [needle in hay] holds exactly when [hay] has [needle] as a contiguous
    part. *)
Lemma str_in_iff (needle hay : str) :
  str_in needle hay = true <-> exists pre post, hay = pre ++ needle ++ post.
Proof.
  induction hay as [|c hay IH]; simpl.
  - rewrite orb_false_r, starts_with_iff. split.
    + intros [r H]. exists [], r. exact H.
    + intros [pre [post H]]. destruct pre; simpl in H.
      * eauto.
      * discriminate.
  - rewrite orb_true_iff, starts_with_iff, IH. split.
    + intros [[r H] | [pre [post H]]].
      * exists [], r. exact H.
      * exists (c :: pre), post. simpl. now rewrite H.
    + intros [pre [post H]]. destruct pre as [|c' pre]; simpl in H.
      * left. eauto.
      * right. inversion H; subst. eauto.
Qed.

Lemma str_in_empty (hay : str) : str_in [] hay = true.
Proof. destruct hay; reflexivity. Qed.

Lemma is_asciib_sound (s : str) : is_asciib s = true -> is_ascii s.
Proof.
  unfold is_asciib, is_ascii. rewrite forallb_forall, Forall_forall.
  intros H c Hc. apply N.ltb_lt, H, Hc.
Qed.

(** ** SHA-256: the constants and the test vectors of the standard *)

Lemma sha256_constants :
  length SHA256.round_constants = 64
  /\ nth 0 SHA256.round_constants 0%N = 0x428a2f98%N
  /\ nth 1 SHA256.round_constants 0%N = 0x71374491%N
  /\ nth 63 SHA256.round_constants 0%N = 0xc67178f2%N
  /\ nth 0 SHA256.initial_hash 0%N = 0x6a09e667%N
  /\ nth 7 SHA256.initial_hash 0%N = 0x5be0cd19%N.
Proof.
  split; [| split; [| split; [| split; [| split]]]]; vm_compute; reflexivity.
Qed.

Lemma sha256_test_vectors :
  SHA256.hexdigest []
  = lit "e3b0c44298fc1c149afbf4c8996fb92427ae41e4649b934ca495991b7852b855"
  /\ SHA256.hexdigest (list_byte_of_string "abc")
     = lit "ba7816bf8f01cfea414140de5dae2223b00361a396177a9cb410ff61f20015ad"
  /\ SHA256.hexdigest
       (list_byte_of_string
          "abcdbcdecdefdefgefghfghighijhijkijkljklmklmnlmnomnopnopq")
     = lit "248d6a61d20638b8e5c026930c3e6039a33ce45964ff2167f6ecedd419db06c1".
Proof. split; [| split]; vm_compute; reflexivity. Qed.

(** ** Slices *)

Lemma slice_to_app (n : nat) (s extra : str) :
  n <= length s -> slice_to n (s ++ extra) = slice_to n s.
Proof.
  intros H. unfold slice_to. rewrite firstn_app.
  replace (n - length s) with 0 by lia. simpl. apply app_nil_r.
Qed.

Lemma slice_last_suffix (n : nat) (s : str) :
  exists front, s = front ++ slice_last n s
                /\ length (slice_last n s) = Nat.min n (length s).
Proof.
  exists (firstn (length s - n) s). unfold slice_last. split.
  - symmetry. apply firstn_skipn.
  - rewrite length_skipn. lia.
Qed.

(** ** Dictionaries *)

Lemma dict_get_in (V : Type) (d : dict V) (k : str) (v : V) :
  dict_get d k = Some v -> In (k, v) d.
Proof.
  induction d as [|[k' v'] d IH]; simpl; [discriminate |].
  destruct (str_eqb k' k) eqn:E.
  - apply str_eqb_eq in E. intros H. inversion H; subst. now left.
  - intros H. right. exact (IH H).
Qed.

Lemma dict_get_set_other (V : Type) (d : dict V) (k k' : str) (v : V) :
  k <> k' -> dict_get (dict_set d k v) k' = dict_get d k'.
Proof.
  intros NE. induction d as [|[k0 v0] d IH]; simpl.
  - apply str_eqb_neq in NE. now rewrite NE.
  - destruct (str_eqb k0 k) eqn:E; simpl.
    + apply str_eqb_eq in E. subst k0. apply str_eqb_neq in NE. now rewrite NE.
    + destruct (str_eqb k0 k'); [reflexivity | exact IH].
Qed.

Lemma dict_get_set_same (V : Type) (d : dict V) (k : str) (v : V) :
  dict_get (dict_set d k v) k = Some v.
Proof.
  induction d as [|[k0 v0] d IH]; simpl.
  - now rewrite str_eqb_refl.
  - destruct (str_eqb k0 k) eqn:E; simpl.
    + now rewrite str_eqb_refl.
    + now rewrite E.
Qed.

(** ** Encoding *)

Lemma encode_app (a b : str) :
  encode (a ++ b) =
  match encode a, encode b with
  | Some x, Some y => Some (x ++ y)
  | _, _ => None
  end.
Proof.
  induction a as [|c a IH]; simpl.
  - destruct (encode b); reflexivity.
  - rewrite IH. destruct (encode_char c), (encode a), (encode b);
      try reflexivity. now rewrite app_assoc.
Qed.

Lemma well_formed_app (a b : str) :
  well_formed (a ++ b) <-> well_formed a /\ well_formed b.
Proof.
  unfold well_formed. rewrite encode_app.
  destruct (encode a), (encode b); intuition congruence.
Qed.

Lemma well_formed_firstn (n : nat) (s : str) :
  well_formed s -> well_formed (firstn n s).
Proof.
  intros H. rewrite <- (firstn_skipn n s) in H.
  now apply well_formed_app in H.
Qed.

(** ** Whitespace *)

Lemma lstrip_split (s : str) :
  exists front, s = front ++ lstrip s /\ forallb isspace front = true.
Proof.
  induction s as [|c s [front [E F]]]; simpl.
  - exists []. split; reflexivity.
  - destruct (isspace c) eqn:W.
    + exists (c :: front). simpl. rewrite W, F. split; [now f_equal | reflexivity].
    + exists []. split; reflexivity.
Qed.

Lemma lstrip_head (s : str) :
  match lstrip s with
  | [] => True
  | c :: _ => isspace c = false
  end.
Proof.
  induction s as [|c s IH]; simpl; [exact I |].
  destruct (isspace c) eqn:W; [exact IH | exact W].
Qed.

(** [strip] removes a run of whitespace at each end of the text and
    leaves a text that neither starts nor ends with whitespace. *)
Lemma strip_spec (s : str) :
  exists front back,
    s = front ++ strip s ++ back
    /\ forallb isspace front = true /\ forallb isspace back = true
    /\ match strip s with [] => True | c :: _ => isspace c = false end
    /\ match rev (strip s) with [] => True | c :: _ => isspace c = false end.
Proof.
  unfold strip, rstrip.
  destruct (lstrip_split s) as [front [E F]].
  destruct (lstrip_split (rev (lstrip s))) as [kcab [E' F']].
  exists front, (rev kcab).
  assert (M : lstrip s = rev (lstrip (rev (lstrip s))) ++ rev kcab).
  { rewrite <- rev_app_distr, <- E'. symmetry. apply rev_involutive. }
  repeat split.
  - rewrite <- M. exact E.
  - exact F.
  - rewrite forallb_forall in *. intros c Hc. apply F', in_rev, Hc.
  - pose proof (lstrip_head s) as Hd.
    destruct (rev (lstrip (rev (lstrip s)))) as [|c r] eqn:R; [exact I |].
    rewrite M in Hd. exact Hd.
  - rewrite rev_involutive. apply lstrip_head.
Qed.

Lemma split_from_word (w cur s : str) :
  forallb (fun c => negb (isspace c)) w = true ->
  split_from cur (w ++ s) = split_from (rev w ++ cur) s.
Proof.
  revert cur; induction w as [|c w IH]; intros cur H; simpl in *.
  - reflexivity.
  - apply andb_true_iff in H as [Hc Hw]. apply negb_true_iff in Hc.
    rewrite Hc, IH by exact Hw. now rewrite <- app_assoc.
Qed.

(** The equations of [split]: leading whitespace is skipped, and a
    non-empty run of non-whitespace characters up to the next whitespace
    character, or up to the end of the text, is one word. *)
Lemma split_equations :
  split [] = []
  /\ (forall c s, isspace c = true -> split (c :: s) = split s)
  /\ (forall w c s, w <> [] ->
        forallb (fun c => negb (isspace c)) w = true ->
        isspace c = true -> split (w ++ c :: s) = w :: split s)
  /\ (forall w, w <> [] ->
        forallb (fun c => negb (isspace c)) w = true -> split w = [w]).
Proof.
  unfold split. repeat split.
  - intros c s H. simpl. now rewrite H.
  - intros w c s Hw Hns Hc. rewrite split_from_word by exact Hns.
    simpl. rewrite Hc, app_nil_r.
    destruct (rev w) eqn:R.
    + apply (f_equal (@rev _)) in R. rewrite rev_involutive in R. contradiction.
    + rewrite <- R, rev_involutive. reflexivity.
  - intros w Hw Hns. rewrite <- (app_nil_r w) at 1.
    rewrite split_from_word by exact Hns. simpl. rewrite app_nil_r.
    destruct (rev w) eqn:R.
    + apply (f_equal (@rev _)) in R. rewrite rev_involutive in R. contradiction.
    + rewrite <- R, rev_involutive. reflexivity.
Qed.

(* ===================================================================== *)
(** * The engine: auxiliary facts *)
(* ===================================================================== *)

Section EngineFacts.
Context {C : Casing}.

(** A literal of lowercase ASCII text is its own lowercasing. *)
Lemma lower_fixed (s : str) :
  is_asciib s = true -> map lower_char s = s -> lower s = s.
Proof.
  intros A E. rewrite lower_ascii by (apply is_asciib_sound, A). exact E.
Qed.

Lemma first_match_find (text : str) (candidates : list str) :
  first_match text candidates = find (fun p => str_in p text) candidates.
Proof.
  induction candidates as [|p rest IH]; simpl; [reflexivity |].
  now rewrite IH.
Qed.

Lemma first_match_some (text : str) (candidates : list str) (p : str) :
  first_match text candidates = Some p ->
  In p candidates /\ str_in p text = true.
Proof.
  rewrite first_match_find. intros F.
  apply (find_some (fun p => str_in p text)) in F. exact F.
Qed.

(** The one error of [extract_core_theme] is the empty theme list. *)
Lemma extract_core_theme_total (text : str) (themes : list str) :
  themes <> [] ->
  exists theme,
    extract_core_theme text themes = Some theme
    /\ In theme themes
    /\ (str_in theme (lower text) = true \/ hd_error themes = Some theme).
Proof.
  intros NE. unfold extract_core_theme.
  destruct (first_match (lower text) themes) as [p|] eqn:F.
  - apply first_match_some in F as [I S]. exists p. auto.
  - destruct themes as [|t rest]; [contradiction |].
    exists t. simpl. auto.
Qed.

(** A loop that appends the image of each accepted item collects the
    accepted items in order. *)
Lemma fold_left_collect (A B : Type) (keep : A -> bool) (f : A -> B)
  (items : list A) (acc : list B) :
  fold_left (fun acc x => if keep x then acc ++ [f x] else acc) items acc
  = acc ++ map f (filter keep items).
Proof.
  revert acc; induction items as [|x items IH]; intros acc; simpl.
  - now rewrite app_nil_r.
  - rewrite IH. destruct (keep x); simpl; [now rewrite <- app_assoc | reflexivity].
Qed.

Lemma extract_themes_filter (text : str) :
  extract_themes text =
  firstn 3 (map fst (filter (fun item => any_in (snd item) (lower text))
                            theme_words)).
Proof.
  unfold extract_themes.
  now rewrite (fold_left_collect (fun item => any_in (snd item) (lower text)) fst).
Qed.

(** Every trigger of the theme table is lowercase ASCII. *)
Lemma theme_triggers_lower :
  Forall (fun item => Forall (fun trigger => lower trigger = trigger) (snd item))
         theme_words.
Proof.
  unfold theme_words.
  repeat (apply Forall_cons || apply Forall_nil); simpl;
    repeat (apply Forall_cons || apply Forall_nil);
    apply lower_fixed; reflexivity.
Qed.

(** Every key of the catalog is lowercase ASCII. *)
Lemma catalog_key_lower (key : str) (data : archetype_data) :
  dict_get ARCHETYPES key = Some data -> lower key = key.
Proof.
  intros G. apply dict_get_in in G.
  assert (A : Forall (fun entry => lower (fst entry) = fst entry) ARCHETYPES).
  { unfold ARCHETYPES.
    repeat (apply Forall_cons || apply Forall_nil); simpl fst;
      apply lower_fixed; vm_compute; reflexivity. }
  rewrite Forall_forall in A. exact (A _ G).
Qed.

Lemma catalog_no_empty_key : dict_get ARCHETYPES [] = None.
Proof. reflexivity. Qed.

Lemma catalog_entries_found :
  Forall (fun entry => dict_get ARCHETYPES (fst entry) = Some (snd entry)
                       /\ lower (fst entry) = fst entry)
         ARCHETYPES.
Proof.
  unfold ARCHETYPES at 2.
  repeat (apply Forall_cons || apply Forall_nil); simpl fst; simpl snd;
    (split; [vm_compute; reflexivity
            | apply lower_fixed; vm_compute; reflexivity]).
Qed.

(** Resolving case-insensitively is finding the lowercased argument
    among the keys. *)
Lemma resolves_ci_get (archetype : str) (data : archetype_data) :
  resolves_ci archetype data <->
  dict_get ARCHETYPES (lower archetype) = Some data.
Proof.
  pose proof catalog_entries_found as F. rewrite Forall_forall in F. split.
  - intros [key [I E]]. destruct (F _ I) as [G L]. simpl in G, L.
    now rewrite <- E, L.
  - intros G. exists (lower archetype). split.
    + now apply dict_get_in.
    + apply dict_get_in in G. destruct (F _ G) as [_ L]. exact L.
Qed.

Lemma lower_empty : lower [] = [].
Proof. apply lower_fixed; reflexivity. Qed.

Lemma extract_core_theme_value (text : str) (themes : list str) :
  themes <> [] -> extract_core_theme text themes = Some (core_theme text themes).
Proof.
  intros NE. unfold extract_core_theme, core_theme.
  destruct (first_match (lower text) themes); [reflexivity |].
  destruct themes; [contradiction | reflexivity].
Qed.

Lemma core_theme_in (text : str) (themes : list str) :
  themes <> [] -> In (core_theme text themes) themes.
Proof.
  intros NE. destruct (extract_core_theme_total text NE) as [t [E [I _]]].
  rewrite extract_core_theme_value in E by exact NE. now inversion E; subst.
Qed.

(** DNA generation raises exactly when hashing does, and otherwise
    returns the record below. *)
Lemma generate_reflexion_dna_value (collapse build now archetype : str) :
  generate_reflexion_dna collapse build now archetype =
  option_map
    (fun hash =>
       {| dna_collapse_root := core_theme collapse collapse_themes;
          dna_emergent_trait := core_theme build build_themes;
          dna_final_state := core_theme now now_themes;
          dna_archetype :=
            if truthy archetype then archetype else lit "wanderer";
          dna_theme_chain := chain_of [collapse; build; now];
          dna_transformation_hash := hash |})
    (generate_transformation_hash collapse build now).
Proof.
  unfold generate_reflexion_dna.
  rewrite !extract_core_theme_value by discriminate.
  unfold bind at 1 2 3. fold (chain_of [collapse; build; now]).
  destruct (generate_transformation_hash collapse build now); reflexivity.
Qed.

Lemma generate_transformation_hash_total (collapse build now : str) :
  well_formed collapse -> well_formed build -> well_formed now ->
  exists hash, generate_transformation_hash collapse build now = Some hash.
Proof.
  intros Hc Hb Hn. unfold generate_transformation_hash, slice_to.
  assert (W : well_formed (firstn 50 collapse ++ firstn 50 build ++ firstn 50 now)).
  { rewrite !well_formed_app. auto using well_formed_firstn. }
  unfold well_formed in W.
  destruct (encode (firstn 50 collapse ++ firstn 50 build ++ firstn 50 now))
    as [data|]; [unfold bind; eauto | contradiction].
Qed.

End EngineFacts.

(* ===================================================================== *)
(** * Reflexion DNA *)
(* ===================================================================== *)

Section DnaClaims.
Context {C : Casing}.

Lemma generate_transformation_hash_digest (collapse build now : str) :
  generate_transformation_hash collapse build now
  = prefix_digest collapse build now.
Proof.
  unfold generate_transformation_hash, prefix_digest, slice_to, bind.
  destruct (encode (firstn 50 collapse ++ firstn 50 build ++ firstn 50 now));
    reflexivity.
Qed.

Lemma dna_hash_field (collapse build now archetype : str) :
  option_map dna_transformation_hash
             (generate_reflexion_dna collapse build now archetype)
  = prefix_digest collapse build now.
Proof.
  rewrite generate_reflexion_dna_value, generate_transformation_hash_digest.
  destruct (prefix_digest collapse build now); reflexivity.
Qed.

Lemma firstn_app_long (n : nat) (s extra : str) :
  n <= length s -> firstn n (s ++ extra) = firstn n s.
Proof. apply slice_to_app. Qed.

(** C1: the [transformation_hash] field of the DNA is the first 12
    hexadecimal digits of the SHA-256 digest of the UTF-8 encoding of the
    first 50 characters of collapse, of build and of now, concatenated
    without separators (and DNA generation raises exactly when that
    encoding does not exist).  Hence the field depends on the three
    50-character prefixes only, and text appended after character 50 of
    any phase leaves it unchanged. *)
Theorem transformation_hash_of_prefixes (collapse build now archetype : str) :
  option_map dna_transformation_hash
             (generate_reflexion_dna collapse build now archetype)
  = option_map (fun data => firstn 12 (SHA256.hexdigest data))
      (encode (firstn 50 collapse ++ firstn 50 build ++ firstn 50 now))
  /\ (forall collapse' build' now' archetype',
        firstn 50 collapse' = firstn 50 collapse ->
        firstn 50 build' = firstn 50 build ->
        firstn 50 now' = firstn 50 now ->
        option_map dna_transformation_hash
                   (generate_reflexion_dna collapse' build' now' archetype')
        = option_map dna_transformation_hash
                     (generate_reflexion_dna collapse build now archetype))
  /\ (forall extra, 50 <= length collapse ->
        option_map dna_transformation_hash
          (generate_reflexion_dna (collapse ++ extra) build now archetype)
        = option_map dna_transformation_hash
            (generate_reflexion_dna collapse build now archetype))
  /\ (forall extra, 50 <= length build ->
        option_map dna_transformation_hash
          (generate_reflexion_dna collapse (build ++ extra) now archetype)
        = option_map dna_transformation_hash
            (generate_reflexion_dna collapse build now archetype))
  /\ (forall extra, 50 <= length now ->
        option_map dna_transformation_hash
          (generate_reflexion_dna collapse build (now ++ extra) archetype)
        = option_map dna_transformation_hash
            (generate_reflexion_dna collapse build now archetype)).
Proof.
  assert (P : forall c b n a c' b' n' a',
             firstn 50 c' = firstn 50 c -> firstn 50 b' = firstn 50 b ->
             firstn 50 n' = firstn 50 n ->
             option_map dna_transformation_hash (generate_reflexion_dna c' b' n' a')
             = option_map dna_transformation_hash (generate_reflexion_dna c b n a)).
  { intros c b n a c' b' n' a' Hc Hb Hn. rewrite !dna_hash_field.
    unfold prefix_digest. now rewrite Hc, Hb, Hn. }
  split; [apply dna_hash_field |].
  split; [intros; now apply P |].
  repeat split; intros extra L; apply P;
    reflexivity || (apply firstn_app_long; exact L).
Qed.

(** C10: the [collapse_root], [emergent_trait] and [final_state] fields of
    a DNA are elements of their six-element theme lists.  On a non-empty
    theme list [extract_core_theme] never raises and returns an element of
    the list, one found in the lowercased text or else the first; DNA
    generation therefore raises only when the hashed prefixes have no
    UTF-8 encoding, which no well-formed text causes. *)
Theorem dna_themes_in_lists (collapse build now archetype : str) :
  (forall text themes, themes <> [] ->
     exists theme,
       extract_core_theme text themes = Some theme /\ In theme themes
       /\ (str_in theme (lower text) = true \/ hd_error themes = Some theme))
  /\ (length collapse_themes = 6 /\ length build_themes = 6
      /\ length now_themes = 6)
  /\ (forall dna,
        generate_reflexion_dna collapse build now archetype = Some dna ->
        In (dna_collapse_root dna) collapse_themes
        /\ In (dna_emergent_trait dna) build_themes
        /\ In (dna_final_state dna) now_themes)
  /\ (generate_reflexion_dna collapse build now archetype = None <->
      encode (firstn 50 collapse ++ firstn 50 build ++ firstn 50 now) = None)
  /\ (well_formed collapse -> well_formed build -> well_formed now ->
      exists dna,
        generate_reflexion_dna collapse build now archetype = Some dna
        /\ In (dna_collapse_root dna) collapse_themes
        /\ In (dna_emergent_trait dna) build_themes
        /\ In (dna_final_state dna) now_themes).
Proof.
  assert (M : forall dna,
             generate_reflexion_dna collapse build now archetype = Some dna ->
             In (dna_collapse_root dna) collapse_themes
             /\ In (dna_emergent_trait dna) build_themes
             /\ In (dna_final_state dna) now_themes).
  { intros dna. rewrite generate_reflexion_dna_value.
    destruct (generate_transformation_hash collapse build now);
      cbn [option_map]; [| discriminate].
    intros E. injection E as <-.
    cbn [dna_collapse_root dna_emergent_trait dna_final_state].
    repeat split; apply core_theme_in; discriminate. }
  split; [intros text themes NE; now apply extract_core_theme_total |].
  split; [repeat split |].
  split; [exact M |].
  split.
  - rewrite generate_reflexion_dna_value, generate_transformation_hash_digest.
    unfold prefix_digest.
    destruct (encode (firstn 50 collapse ++ firstn 50 build ++ firstn 50 now));
      cbn [option_map]; split; congruence.
  - intros Hc Hb Hn.
    destruct (generate_transformation_hash_total Hc Hb Hn) as [hash H].
    destruct (generate_reflexion_dna collapse build now archetype) as [dna|] eqn:G.
    + exists dna. split; [reflexivity | now apply M].
    + rewrite generate_reflexion_dna_value, H in G. discriminate.
Qed.

End DnaClaims.

(* ===================================================================== *)
(** * Theme extraction *)
(* ===================================================================== *)

Section ThemeClaims.
Context {C : Casing}.

Lemma find_agree (A : Type) (f g : A -> bool) (l : list A) :
  Forall (fun x => f x = g x) l -> find f l = find g l.
Proof.
  induction 1 as [|x l E _ IH]; simpl; [reflexivity |].
  now rewrite E, IH.
Qed.

Lemma filter_agree (A : Type) (f g : A -> bool) (l : list A) :
  Forall (fun x => f x = g x) l -> filter f l = filter g l.
Proof.
  induction 1 as [|x l E _ IH]; simpl; [reflexivity |].
  now rewrite E, IH.
Qed.

Lemma existsb_agree (A : Type) (f g : A -> bool) (l : list A) :
  Forall (fun x => f x = g x) l -> existsb f l = existsb g l.
Proof.
  induction 1 as [|x l E _ IH]; simpl; [reflexivity |].
  now rewrite E, IH.
Qed.

(** C2, as amended: for every text and every non-empty list of themes
    that are their own lowercasing, [extract_core_theme] returns, without
    raising, the first element of the list (in list order) that occurs
    case-insensitively in the text, and the first element of the list when
    none occurs; the result is an element of the list. *)
Theorem core_theme_first_occurring (text : str) (themes : list str) :
  themes <> [] ->
  Forall (fun theme => lower theme = theme) themes ->
  extract_core_theme text themes = first_occurring_theme text themes
  /\ exists theme,
       extract_core_theme text themes = Some theme /\ In theme themes.
Proof.
  intros NE L. split.
  - unfold extract_core_theme, first_occurring_theme.
    rewrite first_match_find.
    rewrite (@find_agree _ (fun p => str_in p (lower text))
                         (fun theme => occurs_ci theme text)).
    + destruct themes; [contradiction | reflexivity].
    + apply Forall_impl with (2 := L). intros theme E.
      unfold occurs_ci. now rewrite E.
  - destruct (extract_core_theme_total text NE) as [theme [E [I _]]]. eauto.
Qed.

Lemma NoDup_firstn (A : Type) (n : nat) (l : list A) :
  NoDup l -> NoDup (firstn n l).
Proof.
  intros H. rewrite <- (firstn_skipn n l) in H.
  exact (NoDup_app_remove_r _ _ H).
Qed.

Lemma NoDup_map_filter (A B : Type) (f : A -> B) (keep : A -> bool)
  (l : list A) :
  NoDup (map f l) -> NoDup (map f (filter keep l)).
Proof.
  induction l as [|x l IH]; simpl; [auto |].
  intros H. inversion H as [|? ? NI ND]; subst.
  destruct (keep x); simpl; [| auto].
  constructor; [| auto].
  intros I. apply NI. apply in_map_iff in I as [y [E Hy]].
  apply filter_In in Hy as [Hy _]. apply in_map_iff. eauto.
Qed.

Lemma distinct_NoDup (l : list str) : distinct l = true -> NoDup l.
Proof.
  induction l as [|x l IH]; simpl; [constructor |].
  rewrite andb_true_iff, negb_true_iff. intros [N D].
  constructor; [| auto].
  intros I. assert (T : existsb (str_eqb x) l = true).
  { apply existsb_exists. exists x. split; [exact I | apply str_eqb_refl]. }
  congruence.
Qed.

Lemma matching_themes_filter (text : str) :
  matching_themes text =
  map fst (filter (fun item => any_in (snd item) (lower text)) theme_words).
Proof.
  unfold matching_themes. f_equal. apply filter_agree.
  apply Forall_impl with (2 := theme_triggers_lower).
  intros item L. unfold any_in. apply existsb_agree.
  apply Forall_impl with (2 := L). intros trigger E.
  unfold occurs_ci. now rewrite E.
Qed.

(** C3: [extract_themes] returns the labels of the fixed table of eight
    themes one of whose triggers occurs case-insensitively in the text,
    each label at most once, in the order of the table, cut to the first
    three; it returns the empty list when no trigger occurs. *)
Theorem extract_themes_table_order (text : str) :
  map fst theme_words
  = map lit ["loss"; "betrayal"; "failure"; "awakening"; "rebuilding";
             "transformation"; "freedom"; "integration"]%string
  /\ extract_themes text = firstn 3 (matching_themes text)
  /\ NoDup (extract_themes text)
  /\ length (extract_themes text) <= 3
  /\ (forall theme, In theme (extract_themes text) ->
        exists triggers trigger,
          In (theme, triggers) theme_words /\ In trigger triggers
          /\ occurs_ci trigger text = true)
  /\ ((forall item trigger,
         In item theme_words -> In trigger (snd item) ->
         occurs_ci trigger text = false) ->
      extract_themes text = []).
Proof.
  assert (E : extract_themes text = firstn 3 (matching_themes text)).
  { now rewrite extract_themes_filter, matching_themes_filter. }
  split; [reflexivity |]. split; [exact E |]. rewrite E. split; [| split; [| split]].
  - apply NoDup_firstn. unfold matching_themes. apply NoDup_map_filter.
    apply distinct_NoDup. vm_compute. reflexivity.
  - apply firstn_le_length.
  - intros theme I.
    assert (I' : In theme (matching_themes text)).
    { rewrite <- (firstn_skipn 3 (matching_themes text)).
      apply in_or_app. now left. }
    unfold matching_themes in I'.
    apply in_map_iff in I' as [[label triggers] [L F]]. simpl in L. subst label.
    apply filter_In in F as [T X]. apply existsb_exists in X as [trigger [IT O]].
    exists triggers, trigger. auto.
  - intros None_occurs.
    replace (matching_themes text) with (@nil str); [reflexivity |].
    unfold matching_themes. symmetry.
    destruct (filter _ theme_words) as [|item rest] eqn:F; [reflexivity |].
    assert (I : In item (item :: rest)) by now left.
    rewrite <- F in I. apply filter_In in I as [T X].
    apply existsb_exists in X as [trigger [IT O]].
    rewrite (None_occurs item trigger T IT) in O. discriminate.
Qed.

Lemma keep_not_removed (w : str) :
  negb (in_set w stop_words) && (3 <? length w) = negb (removed w).
Proof.
  unfold removed. rewrite negb_orb. f_equal.
  rewrite Nat.leb_antisym. now rewrite negb_involutive.
Qed.

(** C8: [extract_keywords] lowercases the text, splits it on whitespace,
    removes every token that is a stop word or has at most 3 characters,
    and joins the first 3 remaining tokens with single spaces; it returns
    the literal [the unnamed] when no token remains. *)
Theorem keywords_filtering (text : str) :
  extract_keywords text = keywords_phrase text
  /\ (forall w, In w (surviving_tokens text) <->
                In w (split (lower text))
                /\ in_set w stop_words = false /\ 3 < length w)
  /\ (surviving_tokens text = [] -> extract_keywords text = lit "the unnamed")
  /\ (surviving_tokens text <> [] ->
      extract_keywords text
      = join (lit " ") (firstn 3 (surviving_tokens text))).
Proof.
  assert (E : extract_keywords text = keywords_phrase text).
  { unfold extract_keywords, keywords_phrase, surviving_tokens.
    rewrite (@filter_agree _ _ (fun w => negb (removed w))); [reflexivity |].
    apply Forall_forall. intros w _. apply keep_not_removed. }
  split; [exact E |]. rewrite E. unfold keywords_phrase. split; [| split].
  - intros w. unfold surviving_tokens. rewrite filter_In.
    unfold removed. rewrite negb_orb, andb_true_iff, !negb_true_iff.
    rewrite Nat.leb_gt. tauto.
  - intros ->. reflexivity.
  - intros NE. destruct (surviving_tokens text); [contradiction | reflexivity].
Qed.

End ThemeClaims.

(* ===================================================================== *)
(** * Narrative, compressed summary and share code *)
(* ===================================================================== *)

Section NarrativeClaims.
Context {C : Casing}.

Lemma generate_narrative_join (collapse build now archetype : str) :
  generate_narrative collapse build now archetype =
  join (nl ++ nl)
       (phase_sections collapse build now ++
        match archetype with
        | [] => []
        | _ :: _ =>
            match dict_get ARCHETYPES (lower archetype) with
            | Some data => [archetype_section archetype data]
            | None => [crystallizing_section]
            end
        end).
Proof.
  unfold generate_narrative, phase_sections.
  destruct archetype as [|c rest]; [reflexivity |].
  cbn [truthy]. destruct (dict_get ARCHETYPES (lower (c :: rest))); reflexivity.
Qed.

Lemma compressed_summary_keys (collapse build now archetype : str) :
  map fst (generate_compressed_summary collapse build now archetype) =
  if truthy archetype && dict_has ARCHETYPES archetype
  then phase_keys ++ [lit "Archetypal_Pattern"]
  else phase_keys.
Proof.
  unfold generate_compressed_summary, dict_has.
  destruct (truthy archetype); [| reflexivity].
  destruct (dict_get ARCHETYPES archetype); reflexivity.
Qed.

Lemma raw_key_absent (archetype : str) :
  dict_get ARCHETYPES (lower archetype) = None ->
  dict_get ARCHETYPES archetype = None.
Proof.
  intros N. destruct (dict_get ARCHETYPES archetype) as [data|] eqn:G;
    [| reflexivity].
  rewrite <- (catalog_key_lower _ G) in G. congruence.
Qed.

Lemma dna_archetype_field (collapse build now archetype : str) :
  option_map dna_archetype
             (generate_reflexion_dna collapse build now archetype)
  = option_map
      (fun _ => if truthy archetype then archetype else lit "wanderer")
      (generate_transformation_hash collapse build now).
Proof.
  rewrite generate_reflexion_dna_value.
  destruct (generate_transformation_hash collapse build now); reflexivity.
Qed.

Lemma dna_archetype_stored (collapse build now archetype : str) :
  (forall dna,
     generate_reflexion_dna collapse build now archetype = Some dna ->
     dna_archetype dna
     = if truthy archetype then archetype else lit "wanderer")
  /\ (well_formed collapse -> well_formed build -> well_formed now ->
      exists dna,
        generate_reflexion_dna collapse build now archetype = Some dna
        /\ dna_archetype dna
           = if truthy archetype then archetype else lit "wanderer").
Proof.
  pose proof (dna_archetype_field collapse build now archetype) as F.
  split.
  - intros dna G. rewrite G in F. cbn [option_map] in F.
    destruct (generate_transformation_hash collapse build now);
      cbn [option_map] in F; congruence.
  - intros Hc Hb Hn.
    destruct (generate_transformation_hash_total Hc Hb Hn) as [hash H].
    rewrite H in F.
    destruct (generate_reflexion_dna collapse build now archetype) as [dna|];
      cbn [option_map] in F; [| discriminate].
    exists dna. split; [reflexivity | congruence].
Qed.

(** C4: the narrative is the COLLAPSE, COMPRESSION and CONVERGENCE
    sections, in this order, each a fixed heading and lead-in sentence
    followed by the whitespace-trimmed collapse, build and now text,
    joined (with whatever follows) by a blank-line separator; when the
    archetype is non-empty and resolves case-insensitively in the catalog,
    one more section follows: the ARCHETYPE section naming the title-cased
    archetype, then the description and the quote of the catalog entry. *)
Theorem narrative_sections (collapse build now archetype : str) :
  (exists extra,
     generate_narrative collapse build now archetype
     = join (nl ++ nl)
         ([collapse_section collapse; compression_section build;
           convergence_section now] ++ extra)
     /\ (forall data,
           archetype <> [] ->
           resolves_ci archetype data ->
           extra =
           [nl ++ lit "„Äê ARCHETYPE „Äë" ++ nl ++ lit "You embody the "
               ++ title archetype ++ lit ": " ++ description data
               ++ nl ++ nl ++ quote data]))
  /\ collapse_section collapse
     = lit "„Äê COLLAPSE „Äë" ++ nl
         ++ lit "In the depths of dissolution, you faced the void:" ++ nl
         ++ strip collapse
  /\ compression_section build
     = nl ++ lit "„Äê COMPRESSION „Äë" ++ nl
          ++ lit "From the fragments, you forged something new:" ++ nl
          ++ strip build
  /\ convergence_section now
     = nl ++ lit "„Äê CONVERGENCE „Äë" ++ nl
          ++ lit "Now, you stand transformed:" ++ nl ++ strip now
  /\ (forall text, exists front back,
        text = front ++ strip text ++ back
        /\ forallb isspace front = true /\ forallb isspace back = true
        /\ match strip text with [] => True | c :: _ => isspace c = false end
        /\ match rev (strip text) with
           | [] => True
           | c :: _ => isspace c = false
           end).
Proof.
  split; [| split; [| split; [| split]]].
  - eexists. split; [apply generate_narrative_join |].
    intros data NE G. apply resolves_ci_get in G. rewrite G.
    destruct archetype; [contradiction | reflexivity].
  - reflexivity.
  - reflexivity.
  - reflexivity.
  - apply strip_spec.
Qed.

(** C5, as amended: for every non-empty archetype key whose lowercasing is
    no key of the catalog, the narrative ends with the fallback ARCHETYPE
    section (the archetype is still crystallizing), the compressed summary
    has no [Archetypal_Pattern] key, and the DNA stores the key as given,
    not [wanderer]. *)
Theorem unknown_archetype (collapse build now archetype : str) :
  archetype <> [] ->
  dict_get ARCHETYPES (lower archetype) = None ->
  generate_narrative collapse build now archetype
  = join (nl ++ nl)
      [collapse_section collapse; compression_section build;
       convergence_section now;
       nl ++ lit "„Äê ARCHETYPE „Äë" ++ nl
          ++ lit "Your archetype is still crystallizing in the cosmic forge"]
  /\ map fst (generate_compressed_summary collapse build now archetype)
     = map lit ["Collapse"; "Compression"; "Convergence"]%string
  /\ dict_get (generate_compressed_summary collapse build now archetype)
              (lit "Archetypal_Pattern") = None
  /\ (forall dna,
        generate_reflexion_dna collapse build now archetype = Some dna ->
        dna_archetype dna = archetype)
  /\ (well_formed collapse -> well_formed build -> well_formed now ->
      exists dna,
        generate_reflexion_dna collapse build now archetype = Some dna
        /\ dna_archetype dna = archetype).
Proof.
  intros NE N.
  assert (T : truthy archetype = true) by (destruct archetype; [contradiction | reflexivity]).
  pose proof (raw_key_absent _ N) as R.
  destruct (dna_archetype_stored collapse build now archetype) as [D1 D2].
  rewrite T in D1, D2.
  split; [| split; [| split; [| split]]].
  - rewrite generate_narrative_join, N.
    destruct archetype; [contradiction | reflexivity].
  - rewrite compressed_summary_keys. unfold dict_has. rewrite R, T. reflexivity.
  - unfold generate_compressed_summary. rewrite T, R. reflexivity.
  - exact D1.
  - exact D2.
Qed.

(** C6: with the empty archetype, the narrative is exactly the three
    phase sections, and the DNA stores the archetype [wanderer]. *)
Theorem empty_archetype (collapse build now : str) :
  generate_narrative collapse build now []
  = collapse_section collapse ++ (nl ++ nl)
      ++ compression_section build ++ (nl ++ nl)
      ++ convergence_section now
  /\ generate_narrative collapse build now []
     = join (nl ++ nl)
         [collapse_section collapse; compression_section build;
          convergence_section now]
  /\ (forall dna,
        generate_reflexion_dna collapse build now [] = Some dna ->
        dna_archetype dna = lit "wanderer")
  /\ (well_formed collapse -> well_formed build -> well_formed now ->
      exists dna,
        generate_reflexion_dna collapse build now [] = Some dna
        /\ dna_archetype dna = lit "wanderer").
Proof.
  destruct (dna_archetype_stored collapse build now []) as [D1 D2].
  repeat split; [exact D1 | exact D2].
Qed.

(** C9: for an archetype that is no key of the catalog but equals one up
    to letter case, the narrative ends with the full ARCHETYPE section
    of that entry (title-cased name, description, quote), whereas the
    compressed summary, which looks the raw key up, has no
    [Archetypal_Pattern] key: the summary has that key exactly when the
    raw archetype is non-empty and a key of the catalog. *)
Theorem case_mismatch_archetype (collapse build now archetype : str)
  (data : archetype_data) :
  resolves_ci archetype data ->
  dict_get ARCHETYPES archetype = None ->
  generate_narrative collapse build now archetype
  = join (nl ++ nl)
      [collapse_section collapse; compression_section build;
       convergence_section now;
       nl ++ lit "„Äê ARCHETYPE „Äë" ++ nl ++ lit "You embody the "
          ++ title archetype ++ lit ": " ++ description data
          ++ nl ++ nl ++ quote data]
  /\ map fst (generate_compressed_summary collapse build now archetype)
     = map lit ["Collapse"; "Compression"; "Convergence"]%string
  /\ dict_get (generate_compressed_summary collapse build now archetype)
              (lit "Archetypal_Pattern") = None
  /\ (forall any_archetype,
        dict_has (generate_compressed_summary collapse build now any_archetype)
                 (lit "Archetypal_Pattern")
        = truthy any_archetype && dict_has ARCHETYPES any_archetype).
Proof.
  intros G R. apply resolves_ci_get in G.
  assert (NE : archetype <> []).
  { intros ->. rewrite lower_empty, catalog_no_empty_key in G. discriminate. }
  split; [| split; [| split]].
  - rewrite generate_narrative_join, G.
    destruct archetype; [contradiction | reflexivity].
  - rewrite compressed_summary_keys. unfold dict_has. rewrite R.
    now rewrite andb_false_r.
  - unfold generate_compressed_summary. rewrite R.
    destruct (truthy archetype); reflexivity.
  - intros a. unfold generate_compressed_summary, dict_has at 2.
    destruct (truthy a); [| reflexivity].
    destruct (dict_get ARCHETYPES a); [| reflexivity].
    cbn [andb]. unfold dict_has. now rewrite dict_get_set_same.
Qed.

(** C7: the share code is the prefix, the time component and the id
    component joined by hyphens: the prefix is the first 3 characters of
    the archetype uppercased, or [WND] for the empty archetype; the time
    component is the last 4 characters of the decimal writing of the
    epoch seconds; the id component is the first 4 characters of the
    reflection identifier uppercased.  For [abcd1234], [Phoenix] and
    1700000000 the code is [PHO-0000-ABCD]. *)
Theorem share_code_format (reflection_id archetype : str) (timestamp : Z) :
  generate_share_code reflection_id archetype timestamp
  = match archetype with
    | [] => lit "WND"
    | _ :: _ => upper (firstn 3 archetype)
    end
      ++ lit "-" ++ slice_last 4 (str_of_int timestamp)
      ++ lit "-" ++ upper (firstn 4 reflection_id)
  /\ (exists front,
        str_of_int timestamp = front ++ slice_last 4 (str_of_int timestamp)
        /\ length (slice_last 4 (str_of_int timestamp))
           = Nat.min 4 (length (str_of_int timestamp)))
  /\ generate_share_code (lit "abcd1234") (lit "Phoenix") 1700000000
     = lit "PHO-0000-ABCD".
Proof.
  split; [| split].
  - unfold generate_share_code, slice_to. destruct archetype; reflexivity.
  - apply slice_last_suffix.
  - unfold generate_share_code.
    replace (truthy (lit "Phoenix")) with true by reflexivity.
    rewrite !upper_ascii by (apply is_asciib_sound; vm_compute; reflexivity).
    vm_compute. reflexivity.
Qed.

End NarrativeClaims.

(* ===================================================================== *)
(** * Worked instances *)
(* ===================================================================== *)

(** The instances below run the engine on ASCII texts, on which every
    case mapping agrees with [ascii_casing]. *)

Lemma transformation_hash_of_prefixes_witness :
  option_map dna_transformation_hash
    (generate_reflexion_dna
       (lit "I lost my identity when they betrayed my trust, and then"
          ++ lit " everything else")
       (lit "I built resilience and found wisdom")
       (lit "I am authentic and whole") (lit "phoenix"))
  = option_map dna_transformation_hash
      (generate_reflexion_dna
         (lit "I lost my identity when they betrayed my trust, and then")
         (lit "I built resilience and found wisdom")
         (lit "I am authentic and whole") (lit "phoenix"))
  /\ option_map dna_transformation_hash
       (generate_reflexion_dna
          (lit "I lost my identity when they betrayed my trust, and then")
          (lit "I built resilience and found wisdom")
          (lit "I am authentic and whole") (lit "phoenix"))
     = Some (lit "3aa9d436a09c").
Proof.
  destruct (@transformation_hash_of_prefixes ascii_casing
              (lit "I lost my identity when they betrayed my trust, and then")
              (lit "I built resilience and found wisdom")
              (lit "I am authentic and whole") (lit "phoenix"))
    as (V & _ & A & _).
  split.
  - apply A. vm_compute. lia.
  - rewrite V. vm_compute. reflexivity.
Defined.

Lemma dna_themes_in_lists_witness :
  exists dna,
    generate_reflexion_dna
      (lit "I lost my identity when they betrayed my trust")
      (lit "I built resilience and found wisdom")
      (lit "I am authentic and whole") (lit "phoenix") = Some dna
    /\ In (dna_collapse_root dna) collapse_themes
    /\ In (dna_emergent_trait dna) build_themes
    /\ In (dna_final_state dna) now_themes.
Proof.
  destruct (@dna_themes_in_lists ascii_casing
              (lit "I lost my identity when they betrayed my trust")
              (lit "I built resilience and found wisdom")
              (lit "I am authentic and whole") (lit "phoenix"))
    as (_ & _ & _ & _ & T).
  apply T; vm_compute; discriminate.
Defined.

Lemma core_theme_first_occurring_witness :
  extract_core_theme (lit "I lost my Identity when they betrayed my TRUST")
                     collapse_themes
  = first_occurring_theme
      (lit "I lost my Identity when they betrayed my TRUST") collapse_themes
  /\ exists theme,
       extract_core_theme
         (lit "I lost my Identity when they betrayed my TRUST")
         collapse_themes = Some theme
       /\ In theme collapse_themes.
Proof.
  apply (@core_theme_first_occurring ascii_casing).
  - discriminate.
  - repeat (apply Forall_cons || apply Forall_nil); vm_compute; reflexivity.
Defined.

(** C2 as stated fails on a theme that is not lowercase: only the text is
    lowercased, so [Control], which occurs in the text, is never found,
    and the later theme [trust] is returned. *)
Lemma core_theme_counterexample :
  occurs_ci (lit "Control") (lit "Control and trust") = true
  /\ first_occurring_theme (lit "Control and trust")
                           [lit "Control"; lit "trust"]
     = Some (lit "Control")
  /\ extract_core_theme (lit "Control and trust")
                        [lit "Control"; lit "trust"]
     = Some (lit "trust")
  /\ str_eqb (lit "trust") (lit "Control") = false.
Proof. repeat split; vm_compute; reflexivity. Qed.

Lemma extract_themes_table_order_witness :
  extract_themes (lit "No trigger word in here") = [].
Proof.
  destruct (@extract_themes_table_order ascii_casing
              (lit "No trigger word in here")) as (_ & _ & _ & _ & _ & E).
  apply E. intros item trigger I T.
  unfold theme_words in I. simpl in I.
  repeat (destruct I as [<- | I];
          [ simpl in T;
            repeat (destruct T as [<- | T]; [vm_compute; reflexivity |]);
            contradiction | ]).
  contradiction.
Defined.

Lemma narrative_sections_witness :
  exists data,
    dict_get ARCHETYPES (lit "phoenix") = Some data
    /\ str_in (lit "Viktor Frankl") (quote data) = true
    /\ generate_narrative
         (lit "  I lost my identity when they betrayed my trust ")
         (lit "I built resilience and found wisdom")
         (lit "I am authentic and whole") (lit "phoenix")
       = join (nl ++ nl)
           [collapse_section (lit "I lost my identity when they betrayed my trust");
            compression_section (lit "I built resilience and found wisdom");
            convergence_section (lit "I am authentic and whole");
            nl ++ lit "„Äê ARCHETYPE „Äë" ++ nl ++ lit "You embody the "
               ++ lit "Phoenix" ++ lit ": " ++ description data
               ++ nl ++ nl ++ quote data].
Proof.
  destruct (@narrative_sections ascii_casing
              (lit "  I lost my identity when they betrayed my trust ")
              (lit "I built resilience and found wisdom")
              (lit "I am authentic and whole") (lit "phoenix"))
    as ((extra & E & F) & _).
  destruct (dict_get ARCHETYPES (lit "phoenix")) as [data|] eqn:G;
    [| vm_compute in G; discriminate].
  exists data. split; [reflexivity |]. split.
  - vm_compute in G. injection G as <-. vm_compute. reflexivity.
  - rewrite E.
    rewrite (F data);
      [| discriminate | apply (@resolves_ci_get ascii_casing); exact G].
    vm_compute. reflexivity.
Defined.

Lemma unknown_archetype_witness :
  generate_narrative (lit "lost") (lit "built") (lit "whole") (lit "unicorn")
  = join (nl ++ nl)
      [collapse_section (lit "lost"); compression_section (lit "built");
       convergence_section (lit "whole");
       nl ++ lit "„Äê ARCHETYPE „Äë" ++ nl
          ++ lit "Your archetype is still crystallizing in the cosmic forge"]
  /\ map fst (generate_compressed_summary
                (lit "lost") (lit "built") (lit "whole") (lit "unicorn"))
     = map lit ["Collapse"; "Compression"; "Convergence"]%string
  /\ exists dna,
       generate_reflexion_dna
         (lit "lost") (lit "built") (lit "whole") (lit "unicorn") = Some dna
       /\ dna_archetype dna = lit "unicorn".
Proof.
  destruct (@unknown_archetype ascii_casing
              (lit "lost") (lit "built") (lit "whole") (lit "unicorn"))
    as (N & K & _ & _ & D).
  - discriminate.
  - vm_compute. reflexivity.
  - split; [exact N |]. split; [exact K |].
    apply D; vm_compute; discriminate.
Defined.

(** C5 as stated fails on [Phoenix]: it is non-empty and no key of the
    catalog, yet the narrative ends with the section of the [phoenix]
    entry and not with the fallback section. *)
Lemma unknown_archetype_counterexample :
  truthy (lit "Phoenix") = true
  /\ dict_has ARCHETYPES (lit "Phoenix") = false
  /\ str_in (lit "You embody the Phoenix: Rising from ashes, transformed by fire")
            (generate_narrative [] [] [] (lit "Phoenix")) = true
  /\ str_in (lit "still crystallizing")
            (generate_narrative [] [] [] (lit "Phoenix")) = false
  /\ map fst (generate_compressed_summary [] [] [] (lit "Phoenix"))
     = map lit ["Collapse"; "Compression"; "Convergence"]%string
  /\ option_map dna_archetype
       (generate_reflexion_dna [] [] [] (lit "Phoenix"))
     = Some (lit "Phoenix").
Proof. repeat split; vm_compute; reflexivity. Qed.

Lemma empty_archetype_witness :
  exists dna,
    generate_reflexion_dna (lit "lost") (lit "built") (lit "whole") []
    = Some dna
    /\ dna_archetype dna = lit "wanderer".
Proof.
  destruct (@empty_archetype ascii_casing
              (lit "lost") (lit "built") (lit "whole")) as (_ & _ & _ & D).
  apply D; vm_compute; discriminate.
Defined.

Lemma keywords_filtering_witness :
  extract_keywords (lit "I am it") = lit "the unnamed"
  /\ extract_keywords (lit "I am The  Authentic and whole being of light")
     = lit "authentic whole being".
Proof.
  split.
  - destruct (@keywords_filtering ascii_casing (lit "I am it"))
      as (_ & _ & E & _).
    apply E. vm_compute. reflexivity.
  - destruct (@keywords_filtering ascii_casing
                (lit "I am The  Authentic and whole being of light"))
      as (_ & _ & _ & J).
    rewrite J; [vm_compute; reflexivity | vm_compute; discriminate].
Defined.

Lemma case_mismatch_archetype_witness :
  exists data,
    dict_get ARCHETYPES (lit "phoenix") = Some data
    /\ generate_narrative [] [] [] (lit "Phoenix")
       = join (nl ++ nl)
           [collapse_section []; compression_section [];
            convergence_section [];
            nl ++ lit "„Äê ARCHETYPE „Äë" ++ nl ++ lit "You embody the "
               ++ lit "Phoenix" ++ lit ": " ++ description data
               ++ nl ++ nl ++ quote data]
    /\ dict_get (generate_compressed_summary [] [] [] (lit "Phoenix"))
                (lit "Archetypal_Pattern") = None.
Proof.
  destruct (dict_get ARCHETYPES (lit "phoenix")) as [data|] eqn:G;
    [| vm_compute in G; discriminate].
  exists data. split; [reflexivity |].
  destruct (@case_mismatch_archetype ascii_casing [] [] [] (lit "Phoenix") data)
    as (N & _ & K & _).
  - apply (@resolves_ci_get ascii_casing). exact G.
  - vm_compute. reflexivity.
  - split; [exact N | exact K].
Defined.

(* ===================================================================== *)
(** * Further properties of the engine *)
(* ===================================================================== *)

(** ** The transformation hash *)

Lemma big_endian_length (k : nat) (x : N) :
  length (SHA256.big_endian k x) = k.
Proof. induction k as [|k IH]; simpl; [reflexivity | now rewrite IH]. Qed.

Lemma flat_map_length_const (A B : Type) (f : A -> list B) (k : nat)
  (l : list A) :
  (forall x, length (f x) = k) -> length (flat_map f l) = k * length l.
Proof.
  intros H. induction l as [|x l IH]; simpl; [lia |].
  rewrite length_app, H, IH. lia.
Qed.

Lemma digest_length (msg : bytes) : length (SHA256.digest msg) = 32.
Proof.
  unfold SHA256.digest. rewrite length_map.
  rewrite (@flat_map_length_const _ _ (SHA256.big_endian 4) 4)
    by (intros x; apply big_endian_length).
  reflexivity.
Qed.

Lemma hex_digit_lower_hex (d : N) :
  (d < 16)%N -> is_lower_hex (SHA256.hex_digit d) = true.
Proof.
  intros H. unfold SHA256.hex_digit, is_lower_hex.
  destruct (d <? 10)%N eqn:E.
  - apply N.ltb_lt in E. apply orb_true_iff. left.
    apply andb_true_iff. split; apply N.leb_le; lia.
  - apply N.ltb_ge in E. apply orb_true_iff. right.
    apply andb_true_iff. split; apply N.leb_le; lia.
Qed.

Lemma hex_shape (bs : bytes) :
  length (SHA256.hex bs) = 2 * length bs
  /\ forallb is_lower_hex (SHA256.hex bs) = true.
Proof.
  unfold SHA256.hex. induction bs as [|b bs [L F]]; [split; reflexivity |].
  cbn [flat_map app length forallb]. rewrite L, F. split; [lia |].
  pose proof (Byte.to_N_bounded b) as B.
  rewrite !hex_digit_lower_hex; [reflexivity | |].
  - apply N.mod_lt. discriminate.
  - apply N.Div0.div_lt_upper_bound. lia.
Qed.

Lemma forallb_firstn (A : Type) (p : A -> bool) (n : nat) (l : list A) :
  forallb p l = true -> forallb p (firstn n l) = true.
Proof.
  rewrite !forallb_forall. intros H x I. apply H.
  rewrite <- (firstn_skipn n l). apply in_or_app. now left.
Qed.

Section HashShape.
Context {C : Casing}.

(** X1: whenever the transformation hash exists it is 12 characters long
    and every character is a lowercase hexadecimal digit; so is the
    [transformation_hash] field of every DNA. *)
Theorem transformation_hash_shape (collapse build now : str) :
  (forall hash,
     generate_transformation_hash collapse build now = Some hash ->
     length hash = 12 /\ forallb is_lower_hex hash = true)
  /\ (forall archetype dna,
        generate_reflexion_dna collapse build now archetype = Some dna ->
        length (dna_transformation_hash dna) = 12
        /\ forallb is_lower_hex (dna_transformation_hash dna) = true).
Proof.
  assert (H : forall hash,
             generate_transformation_hash collapse build now = Some hash ->
             length hash = 12 /\ forallb is_lower_hex hash = true).
  { intros hash. unfold generate_transformation_hash, bind, slice_to.
    destruct (encode (firstn 50 collapse ++ firstn 50 build ++ firstn 50 now))
      as [data|]; [| discriminate].
    assert (P : length (firstn 12 (SHA256.hexdigest data)) = 12
                /\ forallb is_lower_hex (firstn 12 (SHA256.hexdigest data))
                   = true).
    { unfold SHA256.hexdigest.
      destruct (hex_shape (SHA256.digest data)) as [L F].
      rewrite digest_length in L. split.
      - rewrite length_firstn, L. reflexivity.
      - apply forallb_firstn, F. }
    revert P. generalize (firstn 12 (SHA256.hexdigest data)).
    intros h P E. injection E as <-. exact P. }
  split; [exact H |].
  intros archetype dna. rewrite generate_reflexion_dna_value.
  destruct (generate_transformation_hash collapse build now) as [hash|];
    cbn [option_map]; [| discriminate].
  specialize (H hash eq_refl). revert H. generalize hash. clear hash.
  intros hash H E. injection E as <-. exact H.
Qed.

End HashShape.

Lemma transformation_hash_shape_witness :
  exists hash,
    generate_transformation_hash (lit "lost") (lit "built") (lit "whole")
    = Some hash
    /\ length hash = 12 /\ forallb is_lower_hex hash = true.
Proof.
  exists (lit "a77d73610a6f").
  assert (E : generate_transformation_hash
                (lit "lost") (lit "built") (lit "whole")
              = Some (lit "a77d73610a6f")) by (vm_compute; reflexivity).
  split; [exact E |].
  exact (proj1 (@transformation_hash_shape ascii_casing
                  (lit "lost") (lit "built") (lit "whole")) _ E).
Defined.

(** ** First-match loops *)

Lemma first_match_split (text : str) (candidates : list str) (p : str) :
  first_match text candidates = Some p ->
  exists before after,
    candidates = before ++ p :: after
    /\ str_in p text = true
    /\ forall q, In q before -> str_in q text = false.
Proof.
  induction candidates as [|c rest IH]; simpl; [discriminate |].
  destruct (str_in c text) eqn:E.
  - intros H. injection H as <-. exists [], rest.
    split; [reflexivity |]. split; [exact E |]. intros q [].
  - intros H. destruct (IH H) as [before [after [L [S B]]]].
    exists (c :: before), after. split; [now rewrite L |].
    split; [exact S |]. intros q [<- | I]; [exact E | now apply B].
Qed.

Lemma first_match_none (text : str) (candidates : list str) :
  first_match text candidates = None <->
  forall q, In q candidates -> str_in q text = false.
Proof.
  induction candidates as [|c rest IH]; simpl.
  - split; [intros _ q [] | reflexivity].
  - destruct (str_in c text) eqn:E.
    + split; [discriminate |]. intros H. rewrite (H c) in E by now left.
      discriminate.
    + rewrite IH. split.
      * intros H q [<- | I]; [exact E | now apply H].
      * intros H q I. apply H. now right.
Qed.

Lemma first_match_choice (text : str) (patterns : list str) (default : str) :
  first_pattern_or
    (match first_match text patterns with
     | Some pattern => pattern
     | None => default
     end)
    text patterns default.
Proof.
  destruct (first_match text patterns) as [p|] eqn:F.
  - left. now apply first_match_split.
  - right. split; [reflexivity |]. now apply first_match_none.
Qed.

Lemma first_match_default (text : str) (patterns : list str) (default : str) :
  existsb (str_eqb default) patterns = false ->
  (match first_match text patterns with
   | Some pattern => pattern
   | None => default
   end = default
   <-> forall q, In q patterns -> str_in q text = false).
Proof.
  intros D. rewrite <- first_match_none.
  destruct (first_match text patterns) as [p|] eqn:F; [| tauto].
  split; [| discriminate]. intros ->.
  apply first_match_some in F as [I _].
  assert (T : existsb (str_eqb default) patterns = true).
  { apply existsb_exists. exists default. split; [exact I | apply str_eqb_refl]. }
  congruence.
Qed.

Section PatternMatchers.
Context {C : Casing}.

(** X2: each of [get_lost_element], [get_emergent_quality] and
    [get_essential_nature] returns the first pattern of its list, in list
    order, that occurs in the lowercased text, and its default word when
    no pattern occurs; it returns the default only in that case. *)
Theorem pattern_matchers_first_wins (text : str) :
  (first_pattern_or (get_lost_element text) (lower text)
                    lost_patterns (lit "stability")
   /\ (get_lost_element text = lit "stability" <->
       forall q, In q lost_patterns -> str_in q (lower text) = false))
  /\ (first_pattern_or (get_emergent_quality text) (lower text)
                       emergent_patterns (lit "new foundations")
      /\ (get_emergent_quality text = lit "new foundations" <->
          forall q, In q emergent_patterns -> str_in q (lower text) = false))
  /\ (first_pattern_or (get_essential_nature text) (lower text)
                       essential_patterns (lit "irreducible essence")
      /\ (get_essential_nature text = lit "irreducible essence" <->
          forall q, In q essential_patterns -> str_in q (lower text) = false)).
Proof.
  unfold get_lost_element, get_emergent_quality, get_essential_nature.
  fold lost_patterns emergent_patterns essential_patterns.
  repeat split;
    try apply first_match_choice;
    apply first_match_default; vm_compute; reflexivity.
Qed.

End PatternMatchers.

Lemma pattern_matchers_first_wins_witness :
  get_lost_element (lit "Nothing of the kind") = lit "stability"
  /\ get_essential_nature (lit "Nothing of the kind")
     = lit "irreducible essence".
Proof.
  destruct (@pattern_matchers_first_wins ascii_casing
              (lit "Nothing of the kind")) as ((_ & L) & _ & (_ & E)).
  split.
  - apply L. intros q I. unfold lost_patterns in I. simpl in I.
    repeat (destruct I as [<- | I]; [vm_compute; reflexivity |]).
    contradiction.
  - apply E. intros q I. unfold essential_patterns in I. simpl in I.
    repeat (destruct I as [<- | I]; [vm_compute; reflexivity |]).
    contradiction.
Defined.

(** ** The theme chain *)

Lemma hd_error_firstn (A : Type) (n : nat) (l : list A) :
  hd_error (firstn (S n) l) = hd_error l.
Proof. destruct l; reflexivity. Qed.

Lemma hd_error_map_filter (A B : Type) (f : A -> B) (keep : A -> bool)
  (l : list A) :
  hd_error (map f (filter keep l)) = option_map f (find keep l).
Proof.
  induction l as [|x l IH]; simpl; [reflexivity |].
  destruct (keep x); [reflexivity | exact IH].
Qed.

Section ThemeChain.
Context {C : Casing}.

Lemma chain_of_phases (collapse build now : str) :
  chain_of [collapse; build; now]
  = firstn 1 (extract_themes collapse) ++ firstn 1 (extract_themes build)
      ++ firstn 1 (extract_themes now).
Proof.
  unfold chain_of. cbn [fold_left].
  destruct (extract_themes collapse), (extract_themes build),
    (extract_themes now); reflexivity.
Qed.

Lemma extract_themes_labels (text : str) (theme : str) :
  In theme (extract_themes text) -> In theme (map fst theme_words).
Proof.
  rewrite extract_themes_filter. intros I.
  assert (I' : In theme (map fst (filter
                 (fun item => any_in (snd item) (lower text)) theme_words))).
  { rewrite <- (firstn_skipn 3 (map fst _)). apply in_or_app. left. exact I. }
  apply in_map_iff in I' as [item [E F]]. apply filter_In in F as [F _].
  apply in_map_iff. eauto.
Qed.

Lemma in_firstn (A : Type) (n : nat) (l : list A) (x : A) :
  In x (firstn n l) -> In x l.
Proof.
  intros I. rewrite <- (firstn_skipn n l). apply in_or_app. now left.
Qed.

(** X3: the theme chain of a DNA holds, in the order collapse, build, now,
    the first theme of each phase that has one: a phase contributes the
    first label of the theme table with a trigger in its lowercased text
    and is skipped when it has none.  The chain has at most three entries,
    all labels of the table, is not padded, and is empty exactly when no
    phase has a theme. *)
Theorem theme_chain_per_phase (collapse build now archetype : str)
  (dna : reflexion_dna) :
  generate_reflexion_dna collapse build now archetype = Some dna ->
  dna_theme_chain dna
  = firstn 1 (extract_themes collapse) ++ firstn 1 (extract_themes build)
      ++ firstn 1 (extract_themes now)
  /\ (forall text,
        hd_error (extract_themes text)
        = option_map fst
            (find (fun item => any_in (snd item) (lower text)) theme_words))
  /\ length (dna_theme_chain dna) <= 3
  /\ (forall theme, In theme (dna_theme_chain dna) ->
                    In theme (map fst theme_words))
  /\ (dna_theme_chain dna = [] <->
      extract_themes collapse = [] /\ extract_themes build = []
      /\ extract_themes now = []).
Proof.
  rewrite generate_reflexion_dna_value.
  destruct (generate_transformation_hash collapse build now) as [hash|];
    cbn [option_map]; [| discriminate].
  generalize hash. clear hash. intros hash E. injection E as <-.
  cbn [dna_theme_chain]. rewrite chain_of_phases.
  split; [reflexivity |]. split; [| split; [| split]].
  - intros text. rewrite extract_themes_filter, hd_error_firstn.
    apply hd_error_map_filter.
  - rewrite !length_app.
    pose proof (firstn_le_length 1 (extract_themes collapse)).
    pose proof (firstn_le_length 1 (extract_themes build)).
    pose proof (firstn_le_length 1 (extract_themes now)).
    rewrite !length_firstn. lia.
  - intros theme I.
    repeat (apply in_app_or in I as [I | I]);
      apply in_firstn in I; now apply extract_themes_labels in I.
  - destruct (extract_themes collapse), (extract_themes build),
      (extract_themes now); cbn [firstn app]; split;
      try discriminate; try (intros (? & ? & ?); discriminate); auto.
Qed.

End ThemeChain.

Lemma theme_chain_per_phase_witness :
  exists dna,
    generate_reflexion_dna
      (lit "I lost my identity when they betrayed my trust")
      (lit "Nothing to report") (lit "I am whole, I am free") [] = Some dna
    /\ dna_theme_chain dna = [lit "loss"; lit "freedom"].
Proof.
  destruct (generate_reflexion_dna
              (lit "I lost my identity when they betrayed my trust")
              (lit "Nothing to report") (lit "I am whole, I am free") [])
    as [dna|] eqn:G; [| vm_compute in G; discriminate].
  exists dna. split; [reflexivity |].
  destruct (@theme_chain_per_phase ascii_casing _ _ _ _ _ G) as (E & _).
  rewrite E. vm_compute. reflexivity.
Defined.

(** ** Letter case of the phase texts *)

Section LetterCase.
Context {C : Casing}.

Lemma extract_themes_lower (text text' : str) :
  lower text = lower text' -> extract_themes text = extract_themes text'.
Proof. intros E. now rewrite !extract_themes_filter, E. Qed.

(** X4: phase texts with the same lowercasing (texts that differ in
    letter case only) give the same compressed summary and DNAs that
    differ at most in the transformation hash: theme fields, archetype
    and theme chain coincide. *)
Theorem letter_case_ignored
  (collapse build now collapse' build' now' archetype : str) :
  lower collapse = lower collapse' ->
  lower build = lower build' ->
  lower now = lower now' ->
  generate_compressed_summary collapse build now archetype
  = generate_compressed_summary collapse' build' now' archetype
  /\ forall dna dna',
       generate_reflexion_dna collapse build now archetype = Some dna ->
       generate_reflexion_dna collapse' build' now' archetype = Some dna' ->
       dna_collapse_root dna = dna_collapse_root dna'
       /\ dna_emergent_trait dna = dna_emergent_trait dna'
       /\ dna_final_state dna = dna_final_state dna'
       /\ dna_archetype dna = dna_archetype dna'
       /\ dna_theme_chain dna = dna_theme_chain dna'.
Proof.
  intros Ec Eb En. split.
  - unfold generate_compressed_summary, extract_keywords, get_lost_element,
      get_emergent_quality, get_essential_nature.
    now rewrite Ec, Eb, En.
  - intros dna dna'. rewrite !generate_reflexion_dna_value.
    destruct (generate_transformation_hash collapse build now) as [h|];
      cbn [option_map]; [| discriminate].
    destruct (generate_transformation_hash collapse' build' now') as [h'|];
      cbn [option_map]; [| discriminate].
    generalize h h'. clear h h'. intros h h' E E'.
    injection E as <-. injection E' as <-.
    cbn [dna_collapse_root dna_emergent_trait dna_final_state dna_archetype
         dna_theme_chain].
    rewrite !chain_of_phases.
    unfold core_theme. rewrite Ec, Eb, En.
    rewrite (extract_themes_lower _ _ Ec), (extract_themes_lower _ _ Eb),
      (extract_themes_lower _ _ En).
    repeat split.
Qed.

End LetterCase.

Lemma letter_case_ignored_witness :
  generate_compressed_summary
    (lit "I LOST my Identity") (lit "I Built Resilience") (lit "I am WHOLE")
    (lit "phoenix")
  = generate_compressed_summary
      (lit "i lost my identity") (lit "i built resilience") (lit "i am whole")
      (lit "phoenix")
  /\ option_map dna_transformation_hash
       (generate_reflexion_dna
          (lit "I LOST my Identity") (lit "I Built Resilience")
          (lit "I am WHOLE") (lit "phoenix"))
     <> option_map dna_transformation_hash
          (generate_reflexion_dna
             (lit "i lost my identity") (lit "i built resilience")
             (lit "i am whole") (lit "phoenix")).
Proof.
  split.
  - apply (@letter_case_ignored ascii_casing); vm_compute; reflexivity.
  - vm_compute. discriminate.
Defined.

(** ** Splitting and joining words *)

Lemma rev_nonempty (A : Type) (l : list A) : l <> [] -> rev l <> [].
Proof.
  intros NE E. apply NE. rewrite <- (rev_involutive l), E. reflexivity.
Qed.

Lemma forallb_rev (A : Type) (p : A -> bool) (l : list A) :
  forallb p l = true -> forallb p (rev l) = true.
Proof.
  rewrite !forallb_forall. intros H x I. apply H. now apply in_rev.
Qed.

Lemma split_from_words (cur s : str) :
  forallb (fun c => negb (isspace c)) cur = true ->
  Forall is_word (split_from cur s).
Proof.
  revert cur. induction s as [|c s IH]; intros cur H; simpl.
  - destruct cur as [|x cur]; [constructor |].
    constructor; [| constructor]. split.
    + apply rev_nonempty. discriminate.
    + now apply forallb_rev.
  - destruct (isspace c) eqn:W.
    + destruct cur as [|x cur]; [now apply IH |].
      constructor; [| now apply IH]. split.
      * apply rev_nonempty. discriminate.
      * now apply forallb_rev.
    + apply IH. simpl. now rewrite W, H.
Qed.

(** Every element of [s.split()] is a word. *)
Lemma split_words (s : str) : Forall is_word (split s).
Proof. now apply split_from_words. Qed.

(** Splitting undoes joining words with single spaces. *)
Lemma split_join (ws : list str) :
  Forall is_word ws -> split (join (lit " ") ws) = ws.
Proof.
  destruct split_equations as (S0 & _ & S2 & S3).
  induction 1 as [|w ws [NE NS] F IH]; [exact S0 |].
  destruct ws as [|w' ws'].
  - simpl. now apply S3.
  - change (join (lit " ") (w :: w' :: ws'))
      with (w ++ 32%N :: join (lit " ") (w' :: ws')).
    rewrite S2; [now rewrite IH | exact NE | exact NS | reflexivity].
Qed.

Lemma Forall_filter (A : Type) (P : A -> Prop) (keep : A -> bool)
  (l : list A) :
  Forall P l -> Forall P (filter keep l).
Proof.
  rewrite !Forall_forall. intros H x I. apply filter_In in I as [I _]. auto.
Qed.

Lemma Forall_firstn (A : Type) (P : A -> Prop) (n : nat) (l : list A) :
  Forall P l -> Forall P (firstn n l).
Proof.
  rewrite !Forall_forall. intros H x I. apply H.
  rewrite <- (firstn_skipn n l). apply in_or_app. now left.
Qed.

Section Keywords.
Context {C : Casing}.

Lemma extract_keywords_of (text : str) :
  extract_keywords text
  = match keywords_of text with
    | [] => lit "the unnamed"
    | _ :: _ => join (lit " ") (firstn 3 (keywords_of text))
    end.
Proof. reflexivity. Qed.

(** X5: the keyword phrase splits back into the words it was joined
    from: at most three words, each a token of the lowercased text that
    has more than 3 characters and is no stop word.  The fallback phrase
    [the unnamed] is returned only when no token remains, so it cannot be
    mistaken for extracted keywords. *)
Theorem keyword_phrase_words (text : str) :
  (keywords_of text <> [] ->
   split (extract_keywords text) = firstn 3 (keywords_of text))
  /\ (extract_keywords text = lit "the unnamed" <-> keywords_of text = [])
  /\ (forall w, In w (keywords_of text) ->
        In w (split (lower text)) /\ in_set w stop_words = false
        /\ 3 < length w /\ is_word w)
  /\ 1 <= length (split (extract_keywords text)) <= 3.
Proof.
  assert (W : Forall is_word (keywords_of text)).
  { unfold keywords_of. apply Forall_filter, split_words. }
  assert (R : keywords_of text <> [] ->
              split (extract_keywords text) = firstn 3 (keywords_of text)).
  { intros NE. rewrite extract_keywords_of.
    destruct (keywords_of text) as [|w ws] eqn:K; [contradiction |].
    apply split_join, Forall_firstn, W. }
  assert (M : forall w, In w (keywords_of text) ->
              In w (split (lower text)) /\ in_set w stop_words = false
              /\ 3 < length w /\ is_word w).
  { intros w I. rewrite Forall_forall in W. pose proof (W w I) as Ww.
    unfold keywords_of in I. apply filter_In in I as [I K].
    apply andb_true_iff in K as [K1 K2].
    apply negb_true_iff in K1. apply Nat.ltb_lt in K2. auto. }
  split; [exact R |]. split; [| split; [exact M |]].
  - split.
    + intros E. destruct (keywords_of text) as [|w ws] eqn:K; [reflexivity |].
      assert (NE : w :: ws <> []) by discriminate.
      specialize (R NE). rewrite E in R.
      change (split (lit "the unnamed")) with [lit "the"; lit "unnamed"] in R.
      cbn [firstn] in R. injection R as <- _.
      destruct (M (lit "the") (or_introl eq_refl)) as (_ & _ & L & _).
      vm_compute in L. lia.
    + intros K. rewrite extract_keywords_of, K. reflexivity.
  - destruct (keywords_of text) as [|w ws] eqn:K.
    + rewrite extract_keywords_of, K. vm_compute. lia.
    + rewrite R by discriminate. rewrite length_firstn. simpl length. lia.
Qed.

End Keywords.

Lemma keyword_phrase_words_witness :
  split (extract_keywords
           (lit "I am The  Authentic and whole being of light"))
  = [lit "authentic"; lit "whole"; lit "being"].
Proof.
  destruct (@keyword_phrase_words ascii_casing
              (lit "I am The  Authentic and whole being of light"))
    as (R & _).
  rewrite R; [vm_compute; reflexivity | vm_compute; discriminate].
Defined.

(** ** Stripping *)

Lemma lstrip_fixed (s : str) :
  match s with [] => True | c :: _ => isspace c = false end -> lstrip s = s.
Proof. destruct s as [|c s]; simpl; [reflexivity | now intros ->]. Qed.

Lemma strip_idempotent (s : str) : strip (strip s) = strip s.
Proof.
  destruct (strip_spec s) as (_ & _ & _ & _ & _ & H & T).
  unfold strip at 1, rstrip.
  rewrite (lstrip_fixed _ H), (lstrip_fixed _ T). apply rev_involutive.
Qed.

Lemma lstrip_whitespace (s : str) : forallb isspace s = true -> lstrip s = [].
Proof.
  induction s as [|c s IH]; simpl; [reflexivity |].
  intros H. apply andb_true_iff in H as [-> H]. auto.
Qed.

Lemma strip_whitespace (s : str) : forallb isspace s = true -> strip s = [].
Proof. intros H. unfold strip. now rewrite lstrip_whitespace. Qed.

Lemma split_from_trailing (cur back : str) :
  forallb isspace back = true ->
  split_from cur back = match cur with [] => [] | _ :: _ => [rev cur] end.
Proof.
  revert cur. induction back as [|c back IH]; intros cur H; simpl.
  - reflexivity.
  - apply andb_true_iff in H as [-> H].
    destruct cur; rewrite IH by exact H; reflexivity.
Qed.

Lemma split_from_app_trailing (cur s back : str) :
  forallb isspace back = true ->
  split_from cur (s ++ back) = split_from cur s.
Proof.
  intros H. revert cur. induction s as [|c s IH]; intros cur; simpl.
  - now apply split_from_trailing.
  - destruct (isspace c); [destruct cur; now rewrite IH | apply IH].
Qed.

Lemma split_leading (front s : str) :
  forallb isspace front = true -> split (front ++ s) = split s.
Proof.
  unfold split. induction front as [|c front IH]; simpl; [reflexivity |].
  intros H. apply andb_true_iff in H as [-> H]. auto.
Qed.

(** Surrounding whitespace does not change the words of a text. *)
Lemma split_strip (s : str) : split (strip s) = split s.
Proof.
  destruct (strip_spec s) as (front & back & E & F & B & _).
  rewrite E at 2. rewrite split_leading by exact F.
  unfold split. now rewrite split_from_app_trailing.
Qed.

(** ** The [/mirror] route *)

Section Mirror.
Context {C : Casing}.

Lemma well_formed_strip (s : str) : well_formed s -> well_formed (strip s).
Proof.
  intros W. destruct (strip_spec s) as (front & back & E & _).
  rewrite E in W. apply well_formed_app in W as [_ W].
  now apply well_formed_app in W as [W _].
Qed.

Lemma mirror_value (form : dict str) (uuid_text : str) (created_at : Z)
  (mv : mirror_values) :
  mirror form uuid_text created_at = Some mv ->
  let collapse := strip (form_get form (lit "collapse") []) in
  let build := strip (form_get form (lit "build") []) in
  let now := strip (form_get form (lit "now") []) in
  let archetype := lower (strip (form_get form (lit "archetype") [])) in
  generate_reflexion_dna collapse build now archetype
  = Some (mv_reflexion_dna mv)
  /\ mv_collapse mv = collapse /\ mv_build mv = build /\ mv_now mv = now
  /\ mv_archetype mv = archetype
  /\ mv_narrative mv = generate_narrative collapse build now archetype
  /\ mv_share_code mv
     = generate_share_code (slice_to 8 uuid_text) archetype created_at
  /\ mv_compressed_summary mv
     = generate_compressed_summary collapse build now archetype
  /\ mv_log_archetype mv
     = (if truthy archetype then archetype else lit "unassigned")
  /\ mv_word_count mv
     = (length (split collapse), length (split build), length (split now))
  /\ mv_archetype_data mv = dict_get ARCHETYPES archetype.
Proof.
  unfold mirror, bind. cbv zeta.
  destruct (generate_reflexion_dna _ _ _ _) as [dna|]; [| discriminate].
  intros H. injection H as <-. repeat split.
Qed.

Lemma mirror_total (form : dict str) (uuid_text : str) (created_at : Z) :
  well_formed (form_get form (lit "collapse") []) ->
  well_formed (form_get form (lit "build") []) ->
  well_formed (form_get form (lit "now") []) ->
  exists mv, mirror form uuid_text created_at = Some mv.
Proof.
  intros Wc Wb Wn. unfold mirror, bind.
  destruct (generate_transformation_hash_total
              (well_formed_strip Wc) (well_formed_strip Wb)
              (well_formed_strip Wn)) as [hash H].
  rewrite generate_reflexion_dna_value, H. cbn [option_map]. eauto.
Qed.

Lemma generate_narrative_strip (collapse build now archetype : str) :
  generate_narrative (strip collapse) (strip build) (strip now) archetype
  = generate_narrative collapse build now archetype.
Proof.
  unfold generate_narrative, collapse_section, compression_section,
    convergence_section.
  now rewrite !strip_idempotent.
Qed.

(** X6: the whitespace [mirror] strips from the three phase fields
    before calling the engine changes nothing downstream: the narrative
    is the one the engine builds from the fields as submitted, the word
    counts are those of the fields as submitted, and stripping the stored
    texts again leaves them unchanged.  A submission of well-formed texts
    always yields its values. *)
Theorem mirror_stripping_invisible (form : dict str) (uuid_text : str)
  (created_at : Z) :
  (forall mv,
     mirror form uuid_text created_at = Some mv ->
     mv_narrative mv
     = generate_narrative (form_get form (lit "collapse") [])
         (form_get form (lit "build") []) (form_get form (lit "now") [])
         (mv_archetype mv)
     /\ mv_word_count mv
        = (length (split (form_get form (lit "collapse") [])),
           length (split (form_get form (lit "build") [])),
           length (split (form_get form (lit "now") [])))
     /\ strip (mv_collapse mv) = mv_collapse mv
     /\ strip (mv_build mv) = mv_build mv
     /\ strip (mv_now mv) = mv_now mv)
  /\ (well_formed (form_get form (lit "collapse") []) ->
      well_formed (form_get form (lit "build") []) ->
      well_formed (form_get form (lit "now") []) ->
      exists mv, mirror form uuid_text created_at = Some mv).
Proof.
  split; [| apply mirror_total].
  intros mv H.
  destruct (mirror_value _ _ _ H)
    as (_ & Ec & Eb & En & Ea & N & _ & _ & _ & W & _).
  rewrite N, W, Ec, Eb, En, Ea, generate_narrative_strip, !split_strip,
    !strip_idempotent.
  repeat split.
Qed.

(** X7: for a submission whose archetype field is missing, empty or
    whitespace only, [mirror] labels the missing archetype in three
    different ways: the archive log says [unassigned], the DNA says
    [wanderer] and the share code starts with [WND-]; the narrative has
    the three phase sections only, the compressed summary its three phase
    keys only, and the template gets no archetype data. *)
Theorem mirror_without_archetype (form : dict str) (uuid_text : str)
  (created_at : Z) (mv : mirror_values) :
  forallb isspace (form_get form (lit "archetype") []) = true ->
  mirror form uuid_text created_at = Some mv ->
  mv_archetype mv = []
  /\ mv_log_archetype mv = lit "unassigned"
  /\ dna_archetype (mv_reflexion_dna mv) = lit "wanderer"
  /\ mv_share_code mv
     = lit "WND-" ++ slice_last 4 (str_of_int created_at) ++ lit "-"
         ++ upper (firstn 4 (firstn 8 uuid_text))
  /\ mv_narrative mv
     = join (nl ++ nl)
         [collapse_section (mv_collapse mv);
          compression_section (mv_build mv);
          convergence_section (mv_now mv)]
  /\ map fst (mv_compressed_summary mv)
     = map lit ["Collapse"; "Compression"; "Convergence"]%string
  /\ mv_archetype_data mv = None.
Proof.
  intros Hw H.
  destruct (mirror_value _ _ _ H)
    as (D & Ec & Eb & En & Ea & N & S & K & L & _ & A).
  rewrite (strip_whitespace _ Hw), lower_empty in *.
  rewrite generate_reflexion_dna_value in D.
  destruct (generate_transformation_hash _ _ _) as [hash|];
    cbn [option_map] in D; [| discriminate].
  revert D. generalize hash. intros h D.
  rewrite N, S, K, L, A, Ea, Ec, Eb, En.
  split; [reflexivity |]. split; [reflexivity |].
  split; [injection D as <-; reflexivity |].
  repeat split.
Qed.

(** X8: when the archetype field, stripped and lowercased, is a key of
    the catalog (whatever the letter case and surrounding whitespace of
    the field), all outputs of [mirror] agree on that entry: the
    narrative ends with its ARCHETYPE section, the compressed summary has
    the [Archetypal_Pattern] sentence of its description, the DNA and the
    log store the key, the template gets the entry, and the share code
    starts with the first three characters of the key, uppercased. *)
Theorem mirror_known_archetype (form : dict str) (uuid_text : str)
  (created_at : Z) (mv : mirror_values) (data : archetype_data) :
  dict_get ARCHETYPES
           (lower (strip (form_get form (lit "archetype") []))) = Some data ->
  mirror form uuid_text created_at = Some mv ->
  mv_archetype mv = lower (strip (form_get form (lit "archetype") []))
  /\ mv_narrative mv
     = join (nl ++ nl)
         [collapse_section (mv_collapse mv);
          compression_section (mv_build mv);
          convergence_section (mv_now mv);
          archetype_section (mv_archetype mv) data]
  /\ dict_get (mv_compressed_summary mv) (lit "Archetypal_Pattern")
     = Some (lit "Walking the " ++ mv_archetype mv ++ lit "'s path: "
               ++ description data)
  /\ dna_archetype (mv_reflexion_dna mv) = mv_archetype mv
  /\ mv_log_archetype mv = mv_archetype mv
  /\ mv_archetype_data mv = Some data
  /\ mv_share_code mv
     = upper (firstn 3 (mv_archetype mv))
         ++ lit "-" ++ slice_last 4 (str_of_int created_at) ++ lit "-"
         ++ upper (firstn 4 (firstn 8 uuid_text)).
Proof.
  intros G H.
  destruct (mirror_value _ _ _ H)
    as (D & Ec & Eb & En & Ea & N & S & K & L & _ & A).
  set (key := lower (strip (form_get form (lit "archetype") []))) in *.
  assert (T : truthy key = true).
  { destruct key; [| reflexivity].
    rewrite catalog_no_empty_key in G. discriminate. }
  pose proof (catalog_key_lower _ G) as Lk.
  rewrite generate_reflexion_dna_value in D.
  destruct (generate_transformation_hash _ _ _) as [hash|];
    cbn [option_map] in D; [| discriminate].
  revert D. generalize hash. intros h D.
  rewrite N, S, K, L, A, Ea, Ec, Eb, En, T.
  split; [reflexivity |].
  split.
  { unfold generate_narrative. rewrite T, Lk, G. reflexivity. }
  split.
  { unfold generate_compressed_summary. rewrite T, G.
    apply dict_get_set_same. }
  split; [injection D as <-; cbn [dna_archetype]; now rewrite T |].
  split; [reflexivity |]. split; [exact G |].
  unfold generate_share_code, slice_to. now rewrite T.
Qed.

End Mirror.

Lemma mirror_stripping_invisible_witness :
  exists mv,
    mirror (sample_form []) (lit "3f2b8c1e-aaaa") 1700000000 = Some mv
    /\ mv_word_count mv = (4, 3, 3)
    /\ mv_narrative mv
       = generate_narrative (lit "  I lost my identity ")
           (lit "I built resilience") (lit " I am whole  ") [].
Proof.
  destruct (@mirror_stripping_invisible ascii_casing (sample_form [])
              (lit "3f2b8c1e-aaaa") 1700000000) as (V & T).
  destruct T as [mv H]; try (vm_compute; discriminate).
  exists mv. split; [exact H |].
  destruct (V mv H) as (N & W & _). split.
  - rewrite W. vm_compute. reflexivity.
  - rewrite N.
    destruct (@mirror_value ascii_casing _ _ _ _ H) as (_ & _ & _ & _ & A & _).
    rewrite A. reflexivity.
Defined.

Lemma mirror_without_archetype_witness :
  exists mv,
    mirror (sample_form [(lit "archetype", lit "  ")])
           (lit "3f2b8c1e-aaaa") 1700000000 = Some mv
    /\ mv_log_archetype mv = lit "unassigned"
    /\ dna_archetype (mv_reflexion_dna mv) = lit "wanderer"
    /\ mv_share_code mv = lit "WND-0000-3F2B".
Proof.
  destruct (mirror (sample_form [(lit "archetype", lit "  ")])
                   (lit "3f2b8c1e-aaaa") 1700000000) as [mv|] eqn:H;
    [| vm_compute in H; discriminate].
  exists mv. split; [reflexivity |].
  destruct (@mirror_without_archetype ascii_casing _ _ _ mv
              (eq_refl : forallb isspace
                           (form_get (sample_form [(lit "archetype", lit "  ")])
                                     (lit "archetype") []) = true) H)
    as (_ & L & D & S & _).
  split; [exact L |]. split; [exact D |]. rewrite S. vm_compute. reflexivity.
Defined.

Lemma mirror_known_archetype_witness :
  exists mv data,
    mirror (sample_form [(lit "archetype", lit " Phoenix ")])
           (lit "3f2b8c1e-aaaa") 1700000000 = Some mv
    /\ mv_archetype mv = lit "phoenix"
    /\ mv_archetype_data mv = Some data
    /\ dict_get (mv_compressed_summary mv) (lit "Archetypal_Pattern")
       = Some (lit "Walking the phoenix's path: " ++ description data)
    /\ mv_share_code mv = lit "PHO-0000-3F2B".
Proof.
  destruct (mirror (sample_form [(lit "archetype", lit " Phoenix ")])
                   (lit "3f2b8c1e-aaaa") 1700000000) as [mv|] eqn:H;
    [| vm_compute in H; discriminate].
  destruct (dict_get ARCHETYPES (lit "phoenix")) as [data|] eqn:G;
    [| vm_compute in G; discriminate].
  exists mv, data. split; [reflexivity |].
  destruct (@mirror_known_archetype ascii_casing
              (sample_form [(lit "archetype", lit " Phoenix ")])
              (lit "3f2b8c1e-aaaa") 1700000000 mv data G H)
    as (A & _ & P & _ & _ & D & S).
  assert (A' : mv_archetype mv = lit "phoenix") by (rewrite A; reflexivity).
  split; [exact A' |]. split; [exact D |]. split.
  - rewrite P, A'. reflexivity.
  - rewrite S, A'. vm_compute. reflexivity.
Defined.

(** ** Decimal writing of integers *)

Lemma of_lu_bound (d : Decimal.uint) :
  (DecimalPos.Unsigned.of_lu d < 10 ^ N.of_nat (Decimal.nb_digits d))%N.
Proof.
  induction d; cbn [DecimalPos.Unsigned.of_lu Decimal.nb_digits];
    [reflexivity | ..];
    rewrite Nat2N.inj_succ, N.pow_succ_r'; lia.
Qed.

Lemma to_uint_bound (p : positive) :
  (Npos p < 10 ^ N.of_nat (Decimal.nb_digits (Pos.to_uint p)))%N.
Proof.
  rewrite <- (DecimalPos.Unsigned.of_to p) at 1.
  rewrite DecimalPos.Unsigned.of_uint_alt.
  rewrite <- (DecimalFacts.nb_digits_rev (Pos.to_uint p)).
  apply of_lu_bound.
Qed.

Lemma string_of_uint_digits (d : Decimal.uint) :
  let s := map N_of_ascii
               (list_ascii_of_string (NilEmpty.string_of_uint d)) in
  length s = Decimal.nb_digits d /\ forallb is_digit s = true.
Proof.
  induction d as [|d [L F]|d [L F]|d [L F]|d [L F]|d [L F]|d [L F]
                  |d [L F]|d [L F]|d [L F]|d [L F]];
    cbn [NilEmpty.string_of_uint list_ascii_of_string map length
         Decimal.nb_digits forallb];
    [split; reflexivity | ..];
    cbv zeta in L, F; rewrite L, F; split; reflexivity.
Qed.

Lemma nilzero_nonnil (d : Decimal.uint) :
  d <> Decimal.Nil ->
  NilZero.string_of_uint d = NilEmpty.string_of_uint d.
Proof. destruct d; [contradiction | reflexivity ..]. Qed.

(** The decimal writing of a positive integer: digits only, as many as
    the integer needs. *)
Lemma str_of_int_positive (z : Z) :
  (0 < z)%Z ->
  forallb is_digit (str_of_int z) = true
  /\ (Z.to_N z < 10 ^ N.of_nat (length (str_of_int z)))%N.
Proof.
  destruct z as [|p|p]; try lia. intros _.
  unfold str_of_int. cbn [Z.to_int NilZero.string_of_int Z.to_N].
  rewrite (nilzero_nonnil (DecimalPos.Unsigned.to_uint_nonnil p)).
  destruct (string_of_uint_digits (Pos.to_uint p)) as [L F].
  cbv zeta in L, F. split; [exact F |].
  pose proof (to_uint_bound p) as B. rewrite <- L in B. exact B.
Qed.

Lemma four_digits (k : nat) : (1000 < 10 ^ N.of_nat k)%N -> 4 <= k.
Proof.
  intros H. destruct (Nat.le_gt_cases 4 k) as [G | G]; [exact G |].
  assert (K : (N.of_nat k <= 3)%N) by lia.
  pose proof (N.pow_le_mono_r 10 _ _ ltac:(discriminate) K) as P.
  change (10 ^ 3)%N with 1000%N in P. lia.
Qed.

Lemma forallb_skipn (A : Type) (p : A -> bool) (n : nat) (l : list A) :
  forallb p l = true -> forallb p (skipn n l) = true.
Proof.
  rewrite !forallb_forall. intros H x I. apply H.
  rewrite <- (firstn_skipn n l). apply in_or_app. now right.
Qed.

Lemma is_ascii_firstn (n : nat) (s : str) : is_ascii s -> is_ascii (firstn n s).
Proof. unfold is_ascii. apply Forall_firstn. Qed.

Lemma upper_char_not_lower (c : char) :
  negb (ascii_lower_letter (upper_char c)) = true.
Proof.
  unfold upper_char. destruct (ascii_lower_letter c) eqn:E.
  - unfold ascii_lower_letter in *. apply andb_true_iff in E as [A B].
    apply N.leb_le in A, B. apply negb_true_iff, andb_false_iff. left.
    apply N.leb_gt. lia.
  - now rewrite E.
Qed.

Lemma digit_not_lower (c : char) :
  is_digit c = true -> negb (ascii_lower_letter c) = true.
Proof.
  unfold is_digit, ascii_lower_letter. intros H.
  apply andb_true_iff in H as [A B]. apply N.leb_le in A, B.
  apply negb_true_iff, andb_false_iff. left. apply N.leb_gt. lia.
Qed.

Section ShareCode.
Context {C : Casing}.

(** X9: for an ASCII archetype and reflection identifier and a timestamp
    of at least 1000 seconds, the share code is a prefix, a hyphen, a
    time component of exactly four decimal digits, a hyphen and an id
    component; the prefix has 3 characters or, for a non-empty archetype
    shorter than that, as many as the archetype; the id component has 4
    characters or as many as the identifier; no lowercase ASCII letter
    occurs in the code, which has at most 13 characters. *)
Theorem share_code_shape (reflection_id archetype : str) (timestamp : Z) :
  is_ascii archetype -> is_ascii reflection_id -> (1000 <= timestamp)%Z ->
  exists prefix time ident,
    generate_share_code reflection_id archetype timestamp
    = prefix ++ lit "-" ++ time ++ lit "-" ++ ident
    /\ length prefix
       = match archetype with
         | [] => 3
         | _ :: _ => Nat.min 3 (length archetype)
         end
    /\ length time = 4 /\ forallb is_digit time = true
    /\ length ident = Nat.min 4 (length reflection_id)
    /\ forallb (fun c => negb (ascii_lower_letter c))
               (generate_share_code reflection_id archetype timestamp) = true
    /\ length (generate_share_code reflection_id archetype timestamp) <= 13.
Proof.
  intros Aa Ai T.
  destruct (@str_of_int_positive timestamp ltac:(lia)) as [D B].
  assert (L4 : 4 <= length (str_of_int timestamp)).
  { apply four_digits. lia. }
  set (time := slice_last 4 (str_of_int timestamp)).
  assert (Lt : length time = 4).
  { unfold time, slice_last. rewrite length_skipn. lia. }
  assert (Dt : forallb is_digit time = true).
  { unfold time, slice_last. now apply forallb_skipn. }
  set (ident := upper (slice_to 4 reflection_id)).
  assert (Ei : ident = map upper_char (firstn 4 reflection_id)).
  { unfold ident, slice_to. apply upper_ascii, is_ascii_firstn, Ai. }
  set (prefix := if truthy archetype then upper (slice_to 3 archetype)
                 else lit "WND").
  assert (Ep : prefix = match archetype with
                        | [] => lit "WND"
                        | _ :: _ => map upper_char (firstn 3 archetype)
                        end).
  { unfold prefix, slice_to. destruct archetype as [|c rest]; [reflexivity |].
    cbn [truthy]. apply upper_ascii, is_ascii_firstn, Aa. }
  assert (Lp : length prefix = match archetype with
                               | [] => 3
                               | _ :: _ => Nat.min 3 (length archetype)
                               end).
  { rewrite Ep. destruct archetype; [reflexivity |].
    now rewrite length_map, length_firstn. }
  assert (Li : length ident = Nat.min 4 (length reflection_id)).
  { now rewrite Ei, length_map, length_firstn. }
  assert (Np : forallb (fun c => negb (ascii_lower_letter c)) prefix = true).
  { rewrite Ep. destruct archetype; [reflexivity |].
    apply forallb_forall. intros x I. apply in_map_iff in I as [y [<- _]].
    apply upper_char_not_lower. }
  assert (Ni : forallb (fun c => negb (ascii_lower_letter c)) ident = true).
  { rewrite Ei. apply forallb_forall. intros x I.
    apply in_map_iff in I as [y [<- _]]. apply upper_char_not_lower. }
  assert (Nt : forallb (fun c => negb (ascii_lower_letter c)) time = true).
  { rewrite forallb_forall in *. intros x I. apply digit_not_lower. auto. }
  exists prefix, time, ident.
  change (generate_share_code reflection_id archetype timestamp)
    with (prefix ++ lit "-" ++ time ++ lit "-" ++ ident).
  split; [reflexivity |]. split; [exact Lp |]. split; [exact Lt |].
  split; [exact Dt |]. split; [exact Li |]. split.
  - rewrite !forallb_app, Np, Nt, Ni. reflexivity.
  - rewrite !length_app, Lp, Lt, Li.
    change (length (lit "-")) with 1. destruct archetype; lia.
Qed.

End ShareCode.

Lemma share_code_shape_witness :
  exists prefix time ident,
    generate_share_code (lit "ab") (lit "Sage") 1700001234
    = prefix ++ lit "-" ++ time ++ lit "-" ++ ident
    /\ length prefix = 3 /\ length time = 4 /\ length ident = 2.
Proof.
  destruct (@share_code_shape ascii_casing (lit "ab") (lit "Sage") 1700001234)
    as (prefix & time & ident & E & Lp & Lt & _ & Li & _).
  - apply is_asciib_sound. reflexivity.
  - apply is_asciib_sound. reflexivity.
  - lia.
  - exists prefix, time, ident. repeat split; assumption.
Defined.

(** ** Excerpts *)

(** X10: the excerpt shown by [explore] is the text itself when the text
    has at most 200 characters; otherwise it is the first 200 characters
    followed by three dots, 203 characters in all, so that the excerpt of
    a text of 201 or 202 characters is longer than the text.  Taking the
    excerpt of an excerpt changes nothing. *)
Theorem excerpt_bounds (text : str) :
  (length text <= 200 -> excerpt text = text)
  /\ (200 < length text ->
      excerpt text = firstn 200 text ++ lit "..."
      /\ length (excerpt text) = 203)
  /\ length (excerpt text) <= 203
  /\ (200 < length text < 203 -> length text < length (excerpt text))
  /\ excerpt (excerpt text) = excerpt text.
Proof.
  assert (S : length text <= 200 -> excerpt text = text).
  { intros H. unfold excerpt. apply Nat.ltb_ge in H. now rewrite H. }
  assert (L : 200 < length text ->
              excerpt text = firstn 200 text ++ lit "..."
              /\ length (excerpt text) = 203).
  { intros H. unfold excerpt, slice_to. pose proof H as H'.
    apply Nat.ltb_lt in H'. rewrite H'. split; [reflexivity |].
    rewrite length_app, length_firstn.
    change (length (lit "...")) with 3. lia. }
  split; [exact S |]. split; [exact L |].
  destruct (Nat.le_gt_cases (length text) 200) as [H | H].
  - pose proof (S H) as E. rewrite !E. repeat split; lia.
  - destruct (L H) as [E Len]. repeat split; try lia.
    unfold excerpt at 1. unfold slice_to.
    replace (200 <? length (excerpt text)) with true
      by (symmetry; apply Nat.ltb_lt; lia).
    rewrite E at 1. rewrite firstn_app, length_firstn.
    replace (200 - Nat.min 200 (length text)) with 0 by lia.
    rewrite firstn_firstn. cbn [firstn]. rewrite app_nil_r.
    replace (Nat.min 200 200) with 200 by reflexivity. now rewrite E.
Qed.

Lemma excerpt_bounds_witness :
  length (excerpt (repeat 97%N 201)) = 203
  /\ excerpt (repeat 97%N 150) = repeat 97%N 150.
Proof.
  destruct (excerpt_bounds (repeat 97%N 201)) as (_ & L & _).
  destruct (excerpt_bounds (repeat 97%N 150)) as (S & _).
  split.
  - apply L. rewrite repeat_length. lia.
  - apply S. rewrite repeat_length. lia.
Defined.

(** ** Dictionaries as counters *)

Lemma dict_get_none_keys (V : Type) (d : dict V) (k : str) :
  dict_get d k = None <-> ~ In k (map fst d).
Proof.
  induction d as [|[k' v] d IH]; simpl; [tauto |].
  destruct (str_eqb k' k) eqn:E.
  - apply str_eqb_eq in E. split; [discriminate | intros H; tauto].
  - apply str_eqb_neq in E. rewrite IH. tauto.
Qed.

Lemma dict_set_keys (V : Type) (d : dict V) (k : str) (v : V) :
  map fst (dict_set d k v)
  = match dict_get d k with
    | Some _ => map fst d
    | None => map fst d ++ [k]
    end.
Proof.
  induction d as [|[k' v'] d IH]; simpl; [reflexivity |].
  destruct (str_eqb k' k) eqn:E; simpl.
  - apply str_eqb_eq in E. now subst.
  - rewrite IH. destruct (dict_get d k); reflexivity.
Qed.

Lemma dict_set_total (d : dict nat) (k : str) (v : nat) :
  total (dict_set d k v)
  + match dict_get d k with Some n => n | None => 0 end
  = total d + v.
Proof.
  induction d as [|[k' v'] d IH]; simpl; [lia |].
  destruct (str_eqb k' k) eqn:E; simpl; lia.
Qed.

Lemma count_archetypes_snoc (entries : list archive_entry)
  (entry : archive_entry) :
  count_archetypes (entries ++ [entry])
  = dict_set (count_archetypes entries) (entry_archetype entry)
      (match dict_get (count_archetypes entries) (entry_archetype entry) with
       | Some n => n
       | None => 0
       end + 1).
Proof. unfold count_archetypes. now rewrite fold_left_app. Qed.

Lemma occurrences_snoc (key : str) (entries : list archive_entry)
  (entry : archive_entry) :
  occurrences key (entries ++ [entry])
  = occurrences key entries
    + (if str_eqb (entry_archetype entry) key then 1 else 0).
Proof.
  unfold occurrences. rewrite filter_app, length_app. simpl.
  destruct (str_eqb (entry_archetype entry) key); reflexivity.
Qed.

(** X11: the archetype statistics of the dashboard count every entry
    once: the count stored for an archetype is the number of entries
    carrying it (entries without the key count as [unassigned]), an
    archetype carried by no entry has no count, no archetype is listed
    twice, and the counts add up to the number of entries.  The recent
    entries are the last ten, newest first. *)
Theorem archetype_counts (entries : list archive_entry) :
  (forall key,
     dict_get (count_archetypes entries) key
     = match occurrences key entries with
       | 0 => None
       | S n => Some (S n)
       end)
  /\ NoDup (map fst (count_archetypes entries))
  /\ total (count_archetypes entries) = length entries
  /\ recent_entries entries = firstn 10 (rev entries)
  /\ length (recent_entries entries) = Nat.min 10 (length entries).
Proof.
  assert (I : (forall key,
                 dict_get (count_archetypes entries) key
                 = match occurrences key entries with
                   | 0 => None
                   | S n => Some (S n)
                   end)
              /\ NoDup (map fst (count_archetypes entries))
              /\ total (count_archetypes entries) = length entries).
  { induction entries as [|entry entries IH] using rev_ind.
    - repeat split. constructor.
    - destruct IH as (G & N & T).
      rewrite (count_archetypes_snoc entries entry).
      set (arch := entry_archetype entry) in *.
      set (counts := count_archetypes entries) in *.
      repeat split.
      + intros key. rewrite (occurrences_snoc key entries entry). fold arch.
        destruct (str_eqb arch key) eqn:E.
        * apply str_eqb_eq in E. subst key.
          rewrite dict_get_set_same, G.
          destruct (occurrences arch entries); simpl; f_equal; lia.
        * apply str_eqb_neq in E. rewrite dict_get_set_other by exact E.
          rewrite G, Nat.add_0_r. reflexivity.
      + rewrite dict_set_keys. destruct (dict_get counts arch) eqn:D;
          [exact N |].
        apply dict_get_none_keys in D.
        apply NoDup_app; [exact N | repeat constructor; intros [] |].
        intros x Ix [<- | []]. contradiction.
      + pose proof (dict_set_total counts arch
                      (match dict_get counts arch with
                       | Some n => n
                       | None => 0
                       end + 1)) as S.
        rewrite length_app. simpl length. lia. }
  assert (R : recent_entries entries = firstn 10 (rev entries)).
  { unfold recent_entries. destruct entries as [|e rest]; [reflexivity |].
    symmetry. apply firstn_rev. }
  destruct I as (G & N & T).
  repeat split; try assumption.
  rewrite R, length_firstn, length_rev. reflexivity.
Qed.

(** ** Entry numbers *)

Lemma decimal_value_uint (d : Decimal.uint) (acc : N) :
  fold_left (fun acc c => (10 * acc + (c - 48))%N)
            (map N_of_ascii
                 (list_ascii_of_string (NilEmpty.string_of_uint d)))
            acc
  = (DecimalPos.Unsigned.of_lu (Decimal.rev d)
     + acc * 10 ^ DecimalPos.Unsigned.usize d)%N.
Proof.
  revert acc. induction d; intros acc;
    cbn [NilEmpty.string_of_uint list_ascii_of_string map fold_left
         DecimalPos.Unsigned.usize];
    [cbn; lia | ..];
    rewrite IHd;
    match goal with
    | |- context [Decimal.rev (?D d)] =>
        change (Decimal.rev (D d)) with (Decimal.revapp d (D Decimal.Nil))
    end;
    rewrite DecimalPos.Unsigned.of_lu_revapp, N.pow_succ_r';
    match goal with
    | |- context [(N_of_ascii ?a - 48)%N] =>
        let v := eval vm_compute in (N_of_ascii a - 48)%N in
        change (N_of_ascii a - 48)%N with v
    end;
    match goal with
    | |- context [DecimalPos.Unsigned.of_lu (?D Decimal.Nil)] =>
        let v := eval vm_compute in (DecimalPos.Unsigned.of_lu (D Decimal.Nil)) in
        change (DecimalPos.Unsigned.of_lu (D Decimal.Nil)) with v
    end;
    ring.
Qed.

Lemma decimal_value_str_of_int (n : nat) :
  decimal_value (str_of_int (Z.of_nat n)) = N.of_nat n.
Proof.
  unfold decimal_value, str_of_int.
  destruct (Z.of_nat n) as [|p|p] eqn:E; try lia.
  - cbn. lia.
  - cbn [Z.to_int NilZero.string_of_int].
    rewrite (nilzero_nonnil (DecimalPos.Unsigned.to_uint_nonnil p)).
    rewrite decimal_value_uint, <- DecimalPos.Unsigned.of_uint_alt.
    rewrite DecimalPos.Unsigned.of_to. lia.
Qed.

Lemma decimal_value_zeros (k : nat) (s : str) :
  decimal_value (repeat 48%N k ++ s) = decimal_value s.
Proof.
  unfold decimal_value. induction k as [|k IH]; [reflexivity | exact IH].
Qed.

(** Reading back the number of a formatted entry number. *)
Lemma format_03d_value (n : nat) : decimal_value (format_03d n) = N.of_nat n.
Proof.
  unfold format_03d. now rewrite decimal_value_zeros, decimal_value_str_of_int.
Qed.

Lemma entry_id_of_inj (n m : nat) : entry_id_of n = entry_id_of m -> n = m.
Proof.
  unfold entry_id_of. intros E. apply app_inv_head in E.
  apply (f_equal decimal_value) in E. rewrite !format_03d_value in E. lia.
Qed.

Lemma log_filename_inj (a b : str) : log_filename a = log_filename b -> a = b.
Proof.
  unfold log_filename. intros E. apply app_inv_head in E.
  now apply app_inv_tail in E.
Qed.

Lemma log_filename_json (entry_id : str) :
  ends_with (lit ".json") (log_filename entry_id) = true.
Proof.
  unfold ends_with, log_filename. rewrite !rev_app_distr, <- app_assoc.
  apply starts_with_iff. eauto.
Qed.

Lemma format_03d_length (n : nat) : 3 <= length (format_03d n).
Proof.
  unfold format_03d. cbv zeta. rewrite length_app, repeat_length.
  change (@length N) with (@length char).
  generalize (length (str_of_int (Z.of_nat n))). intros k. lia.
Qed.

(** ** The archive directory *)

Section ArchiveFacts.
Variable entry : Type.

Lemma existing_files_set (dir : archive entry) (name : str) (e : entry) :
  ends_with (lit ".json") name = true ->
  existing_files (dict_set dir name e)
  = match dict_get dir name with
    | Some _ => existing_files dir
    | None => existing_files dir ++ [name]
    end.
Proof.
  intros J. unfold existing_files. rewrite dict_set_keys.
  destruct (dict_get dir name); [reflexivity |].
  rewrite filter_app. simpl. now rewrite J.
Qed.

Lemma numbered_fresh (dir : archive entry) (logs : list (str -> entry)) :
  numbered dir logs ->
  dict_get dir (log_filename (entry_id_of (S (length logs)))) = None.
Proof.
  intros (_ & N & _). apply dict_get_none_keys. intros I.
  assert (F : In (log_filename (entry_id_of (S (length logs))))
                 (existing_files dir)).
  { apply filter_In. split; [exact I | apply log_filename_json]. }
  destruct (N _ F) as [i [L E]].
  apply log_filename_inj, entry_id_of_inj in E. lia.
Qed.

Lemma numbered_step (dir : archive entry) (logs : list (str -> entry))
  (log : str -> entry) :
  numbered dir logs -> numbered (log_collapse dir log) (logs ++ [log]).
Proof.
  intros H. pose proof (numbered_fresh H) as Fr.
  destruct H as (L & N & G).
  assert (Id : next_entry_id dir = entry_id_of (S (length logs))).
  { unfold next_entry_id. rewrite L. f_equal. lia. }
  unfold log_collapse. rewrite Id.
  set (name := log_filename (entry_id_of (S (length logs)))) in *.
  assert (Ex : existing_files
                 (dict_set dir name (log (entry_id_of (S (length logs)))))
               = existing_files dir ++ [name]).
  { rewrite existing_files_set by apply log_filename_json. now rewrite Fr. }
  split; [| split].
  - rewrite Ex, !length_app, L. reflexivity.
  - intros n I. rewrite Ex in I. rewrite length_app. simpl length.
    apply in_app_or in I as [I | [<- | []]].
    + destruct (N n I) as [i [Li E]]. exists i. split; [lia | exact E].
    + exists (length logs). split; [lia | reflexivity].
  - intros i l E. unfold get_collapse_entry.
    destruct (Nat.lt_ge_cases i (length logs)) as [Lt | Ge].
    + rewrite nth_error_app1 in E by exact Lt.
      rewrite dict_get_set_other; [exact (G i l E) |].
      unfold name. intros Eq.
      apply log_filename_inj, entry_id_of_inj in Eq. lia.
    + rewrite nth_error_app2 in E by exact Ge.
      destruct (i - length logs) as [|k] eqn:D.
      * simpl in E. injection E as <-.
        replace i with (length logs) by lia. apply dict_get_set_same.
      * simpl in E. destruct k; discriminate.
Qed.

(** X12: starting from a directory without JSON files, the log that the
    [i]-th submission writes can be read back under the entry id it was
    given, whatever was logged afterwards: successive submissions get the
    ids of the numbers 1, 2, 3, ... and no log overwrites another.  The
    number written in an entry id can be read back from it, so distinct
    numbers give distinct ids. *)
Theorem archive_keeps_every_log (dir0 : archive entry)
  (logs : list (str -> entry)) :
  existing_files dir0 = [] ->
  length (existing_files (fold_left (@log_collapse entry) logs dir0))
  = length logs
  /\ next_entry_id (fold_left (@log_collapse entry) logs dir0)
     = entry_id_of (S (length logs))
  /\ (forall i log,
        nth_error logs i = Some log ->
        get_collapse_entry (fold_left (@log_collapse entry) logs dir0)
                           (entry_id_of (S i))
        = Some (log (entry_id_of (S i))))
  /\ (forall n,
        entry_id_of n = lit "entry_" ++ format_03d n
        /\ decimal_value (format_03d n) = N.of_nat n
        /\ 3 <= length (format_03d n)).
Proof.
  intros E0.
  assert (H : numbered (fold_left (@log_collapse entry) logs dir0) logs).
  { induction logs as [|log logs IH] using rev_ind.
    - simpl. unfold numbered. rewrite E0. split; [reflexivity |].
      split; [intros name [] |]. intros [|i] l; discriminate.
    - rewrite fold_left_app. simpl. now apply numbered_step. }
  destruct H as (L & _ & G).
  split; [exact L |]. split; [| split; [exact G |]].
  - unfold next_entry_id. rewrite L. f_equal. lia.
  - intros n. split; [reflexivity |].
    split; [apply format_03d_value | apply format_03d_length].
Qed.

(** X13: the logging step never checks whether the file of the next
    entry id exists.  When it does (the number of JSON files no longer
    matches the numbers in use, as after a file was removed), the log in
    that file is replaced, no file is added, and the next entry id stays
    the same, so the following submission replaces the same log again. *)
Theorem log_overwrites_taken_id (dir : archive entry)
  (log : str -> entry) (old : entry) :
  get_collapse_entry dir (next_entry_id dir) = Some old ->
  get_collapse_entry (log_collapse dir log) (next_entry_id dir)
  = Some (log (next_entry_id dir))
  /\ map fst (log_collapse dir log) = map fst dir
  /\ next_entry_id (log_collapse dir log) = next_entry_id dir.
Proof.
  unfold get_collapse_entry. intros T.
  assert (K : map fst (log_collapse dir log) = map fst dir).
  { unfold log_collapse. rewrite dict_set_keys, T. reflexivity. }
  split; [apply dict_get_set_same |]. split; [exact K |].
  unfold next_entry_id, existing_files. now rewrite K.
Qed.

End ArchiveFacts.

Lemma archive_keeps_every_log_witness :
  get_collapse_entry
    (fold_left (@log_collapse str)
               [fun id => lit "first " ++ id; fun id => lit "second " ++ id;
                fun id => lit "third " ++ id]
               [(lit "notes.txt", lit "kept")])
    (lit "entry_002")
  = Some (lit "second entry_002").
Proof.
  destruct (@archive_keeps_every_log str
              [(lit "notes.txt", lit "kept")]
              [fun id => lit "first " ++ id; fun id => lit "second " ++ id;
               fun id => lit "third " ++ id] eq_refl) as (_ & _ & G & _).
  exact (G 1 (fun id => lit "second " ++ id) eq_refl).
Defined.

Lemma log_overwrites_taken_id_witness :
  get_collapse_entry
    (log_collapse [(lit "collapse_entry_002.json", lit "second")]
                  (fun id => lit "third " ++ id))
    (lit "entry_002")
  = Some (lit "third entry_002").
Proof.
  destruct (@log_overwrites_taken_id str
              [(lit "collapse_entry_002.json", lit "second")]
              (fun id => lit "third " ++ id) (lit "second") eq_refl)
    as (G & _).
  exact G.
Defined.

(** ** The order of the archive listing *)

Lemma str_ltb_irrefl (s : str) : str_ltb s s = false.
Proof.
  induction s as [|c s IH]; simpl; [reflexivity |].
  now rewrite N.ltb_irrefl, N.eqb_refl, IH.
Qed.

Lemma str_ltb_app_head (p a b : str) :
  str_ltb (p ++ a) (p ++ b) = str_ltb a b.
Proof.
  induction p as [|c p IH]; simpl; [reflexivity |].
  now rewrite N.ltb_irrefl, N.eqb_refl, IH.
Qed.

Lemma str_ltb_app_tail (a b s : str) :
  length a = length b -> str_ltb (a ++ s) (b ++ s) = str_ltb a b.
Proof.
  revert b. induction a as [|x a IH]; intros [|y b] L; try discriminate.
  - simpl. rewrite str_ltb_irrefl. reflexivity.
  - simpl. rewrite IH by (simpl in L; lia). reflexivity.
Qed.

Lemma format_03d_three_digits (n : nat) :
  n < 1000 -> format_03d n = three_digits n.
Proof.
  intros H.
  assert (A : forallb (fun k => str_eqb (format_03d k) (three_digits k))
                      (seq 0 1000) = true) by (vm_compute; reflexivity).
  rewrite forallb_forall in A. apply str_eqb_eq, A, in_seq. lia.
Qed.

Lemma digits_decomposition (n : nat) :
  n = 100 * (n / 100) + 10 * (n / 10 mod 10) + n mod 10
  /\ n / 10 mod 10 < 10 /\ n mod 10 < 10.
Proof.
  pose proof (Nat.div_mod_eq n 10) as A.
  pose proof (Nat.div_mod_eq (n / 10) 10) as B.
  rewrite Nat.Div0.div_div in B. change (10 * 10) with 100 in B.
  pose proof (Nat.mod_upper_bound n 10 ltac:(discriminate)).
  pose proof (Nat.mod_upper_bound (n / 10) 10 ltac:(discriminate)).
  lia.
Qed.

Lemma three_digits_order (n m : nat) :
  str_ltb (three_digits n) (three_digits m) = true <-> n < m.
Proof.
  unfold three_digits. cbn [map str_ltb].
  destruct (digits_decomposition n) as (En & Bn & Cn).
  destruct (digits_decomposition m) as (Em & Bm & Cm).
  revert En Em Bn Cn Bm Cm.
  generalize (n / 100) (n / 10 mod 10) (n mod 10)
             (m / 100) (m / 10 mod 10) (m mod 10).
  intros a b c a' b' c' -> -> Bn Cn Bm Cm.
  repeat (rewrite orb_true_iff || rewrite andb_true_iff).
  rewrite !N.ltb_lt, !N.eqb_eq.
  split.
  - intros H. intuition (try discriminate; lia).
  - intros H.
    destruct (Nat.lt_trichotomy a a') as [L | [E | L]]; [left; lia | | lia].
    right. split; [lia |].
    destruct (Nat.lt_trichotomy b b') as [L | [E' | L]]; [left; lia | | lia].
    right. split; [lia |]. left. lia.
Qed.

(** X14: the file names of the entries numbered below 1000 are ordered,
    as strings, like their numbers, so that the sorted listing the
    dashboard reads is in order of submission; the zero filling stops at
    three digits, and the file of entry 1000 sorts before the file of
    entry 999. *)
Theorem archive_listing_order :
  (forall n m,
     n < 1000 -> m < 1000 ->
     (str_ltb (log_filename (entry_id_of n)) (log_filename (entry_id_of m))
      = true <-> n < m))
  /\ (forall n, n < 1000 -> length (entry_id_of n) = 9)
  /\ str_ltb (log_filename (entry_id_of 1000)) (log_filename (entry_id_of 999))
     = true.
Proof.
  split; [| split].
  - intros n m Hn Hm. unfold log_filename, entry_id_of.
    rewrite <- !app_assoc, !str_ltb_app_head.
    rewrite !format_03d_three_digits by assumption.
    rewrite str_ltb_app_tail by reflexivity.
    apply three_digits_order.
  - intros n Hn. unfold entry_id_of.
    rewrite format_03d_three_digits by exact Hn. reflexivity.
  - vm_compute. reflexivity.
Qed.

Lemma archive_listing_order_witness :
  str_ltb (log_filename (entry_id_of 9)) (log_filename (entry_id_of 10)) = true.
Proof.
  destruct archive_listing_order as (O & _).
  apply O; lia.
Defined.

(** ** Precedence of the DNA and of the compressed summary *)

Section Precedence.
Context {C : Casing}.

Lemma first_match_head (text p : str) (rest : list str) :
  str_in p text = true -> first_match text (p :: rest) = Some p.
Proof. intros H. simpl. now rewrite H. Qed.

(** X15: the DNA and the compressed summary read the same phase text
    with differently ordered word lists.  Whenever [control] occurs in the
    lowercased collapse text the DNA names [control] as collapse root, and
    whenever [identity] occurs the summary names [identity] as the lost
    element; likewise [resilience] and [strength] for the build text.  A
    text holding both words is therefore described by two different
    words. *)
Theorem dna_and_summary_precedence
  (collapse build now archetype : str) (dna : reflexion_dna) :
  generate_reflexion_dna collapse build now archetype = Some dna ->
  (str_in (lit "control") (lower collapse) = true ->
   dna_collapse_root dna = lit "control")
  /\ (str_in (lit "identity") (lower collapse) = true ->
      get_lost_element collapse = lit "identity"
      /\ dict_get (generate_compressed_summary collapse build now archetype)
                  (lit "Collapse")
         = Some (lit "The dissolution began when "
                   ++ extract_keywords collapse
                   ++ lit " shattered the illusion of " ++ lit "identity"))
  /\ (str_in (lit "resilience") (lower build) = true ->
      dna_emergent_trait dna = lit "resilience")
  /\ (str_in (lit "strength") (lower build) = true ->
      get_emergent_quality build = lit "strength").
Proof.
  rewrite generate_reflexion_dna_value.
  destruct (generate_transformation_hash collapse build now) as [hash|];
    cbn [option_map]; [| discriminate].
  generalize hash. clear hash. intros hash E. injection E as <-.
  cbn [dna_collapse_root dna_emergent_trait].
  assert (L : str_in (lit "identity") (lower collapse) = true ->
              get_lost_element collapse = lit "identity").
  { intros H. unfold get_lost_element.
    cbn [map]. now rewrite (first_match_head _ _ _ H). }
  split; [| split; [| split]].
  - intros H. unfold core_theme, collapse_themes. cbn [map].
    now rewrite (first_match_head _ _ _ H).
  - intros H. split; [now apply L |].
    assert (G : forall a,
              dict_get (generate_compressed_summary collapse build now a)
                       (lit "Collapse")
              = Some (lit "The dissolution began when "
                        ++ extract_keywords collapse
                        ++ lit " shattered the illusion of "
                        ++ get_lost_element collapse)).
    { intros a. unfold generate_compressed_summary.
      destruct (truthy a); [| reflexivity].
      destruct (dict_get ARCHETYPES a); [| reflexivity].
      rewrite dict_get_set_other by (vm_compute; discriminate). reflexivity. }
    rewrite G, (L H). reflexivity.
  - intros H. unfold core_theme, build_themes. cbn [map].
    now rewrite (first_match_head _ _ _ H).
  - intros H. unfold get_emergent_quality. cbn [map].
    now rewrite (first_match_head _ _ _ H).
Qed.

End Precedence.

Lemma dna_and_summary_precedence_witness :
  exists dna,
    generate_reflexion_dna
      (lit "I lost control of my identity") (lit "built") (lit "whole") []
    = Some dna
    /\ dna_collapse_root dna = lit "control"
    /\ get_lost_element (lit "I lost control of my identity")
       = lit "identity".
Proof.
  destruct (generate_reflexion_dna
              (lit "I lost control of my identity") (lit "built")
              (lit "whole") []) as [dna|] eqn:G;
    [| vm_compute in G; discriminate].
  exists dna. split; [reflexivity |].
  destruct (@dna_and_summary_precedence ascii_casing _ _ _ _ _ G)
    as (R & L & _).
  split; [apply R | apply L]; vm_compute; reflexivity.
Defined.

(** ** Replacing *)

Lemma replace_from_skip (old new x rest : str) :
  replace_from (length x) old new (x ++ rest) = replace_from 0 old new rest.
Proof.
  induction x as [|c x IH]; [reflexivity | exact IH].
Qed.

Lemma replace_from_match (h : char) (t new rest : str) :
  replace_from 0 (h :: t) new ((h :: t) ++ rest)
  = new ++ replace_from 0 (h :: t) new rest.
Proof.
  cbn [app replace_from].
  replace (starts_with (h :: t) (h :: t ++ rest)) with true
    by (symmetry; apply (starts_with_iff (h :: t) (h :: t ++ rest));
        exists rest; reflexivity).
  replace (length (h :: t) - 1) with (length t) by (simpl; lia).
  now rewrite replace_from_skip.
Qed.

Lemma replace_from_absent (h : char) (t new a rest : str) :
  ~ In h a ->
  replace_from 0 (h :: t) new (a ++ rest)
  = a ++ replace_from 0 (h :: t) new rest.
Proof.
  induction a as [|c a IH]; intros N; [reflexivity |].
  cbn [app replace_from starts_with].
  assert (E : (h =? c)%N = false).
  { apply N.eqb_neq. intros ->. apply N. now left. }
  rewrite E. cbn [andb]. f_equal. apply IH. intros I. apply N. now right.
Qed.

Lemma replace_from_untouched (h : char) (t new s : str) :
  ~ In h s -> replace_from 0 (h :: t) new s = s.
Proof.
  intros N. pose proof (@replace_from_absent h t new s [] N) as E.
  rewrite app_nil_r in E. rewrite E. apply app_nil_r.
Qed.

(** Text without the first character of the brackets is exported as it
    is. *)
Lemma processed_narrative_plain (s : str) :
  ~ In bracket_start s -> processed_narrative s = s.
Proof.
  intros N. unfold processed_narrative, replace, opening_bracket,
    closing_bracket.
  change (lit "„Äê") with (bracket_start :: [196; 234]%N).
  change (lit "„Äë") with (bracket_start :: [196; 235]%N).
  cbv iota beta.
  rewrite (@replace_from_untouched bracket_start [196; 234]%N _ s N).
  apply (@replace_from_untouched bracket_start [196; 235]%N _ s N).
Qed.

Lemma processed_narrative_mark (s : str) :
  processed_narrative s = mark_headings s.
Proof. reflexivity. Qed.

Lemma opening_match (new rest : str) :
  replace_from 0 opening_bracket new (opening_bracket ++ rest)
  = new ++ replace_from 0 opening_bracket new rest.
Proof. exact (replace_from_match bracket_start [196; 234]%N new rest). Qed.

Lemma closing_match (new rest : str) :
  replace_from 0 closing_bracket new (closing_bracket ++ rest)
  = new ++ replace_from 0 closing_bracket new rest.
Proof. exact (replace_from_match bracket_start [196; 235]%N new rest). Qed.

Lemma opening_absent (new a rest : str) :
  ~ In bracket_start a ->
  replace_from 0 opening_bracket new (a ++ rest)
  = a ++ replace_from 0 opening_bracket new rest.
Proof. exact (@replace_from_absent bracket_start [196; 234]%N new a rest). Qed.

Lemma closing_absent (new a rest : str) :
  ~ In bracket_start a ->
  replace_from 0 closing_bracket new (a ++ rest)
  = a ++ replace_from 0 closing_bracket new rest.
Proof. exact (@replace_from_absent bracket_start [196; 235]%N new a rest). Qed.

Lemma pass1_closing (new rest : str) :
  replace_from 0 opening_bracket new (closing_bracket ++ rest)
  = closing_bracket ++ replace_from 0 opening_bracket new rest.
Proof. reflexivity. Qed.

Lemma pass2_opening (new rest : str) :
  replace_from 0 closing_bracket new (opening_bracket ++ rest)
  = opening_bracket ++ replace_from 0 closing_bracket new rest.
Proof. reflexivity. Qed.

Lemma mark_headings_safe (a rest : str) :
  ~ In bracket_start a -> mark_headings (a ++ rest) = a ++ mark_headings rest.
Proof.
  intros N. unfold mark_headings.
  rewrite opening_absent by exact N. now rewrite closing_absent by exact N.
Qed.

(** A heading, a label between the brackets, becomes a level-two heading
    followed by a line break. *)
Lemma mark_headings_heading (label rest : str) :
  ~ In bracket_start label ->
  mark_headings (opening_bracket ++ label ++ closing_bracket ++ rest)
  = lit "## " ++ opening_bracket ++ label ++ closing_bracket ++ nl
      ++ mark_headings rest.
Proof.
  intros N. unfold mark_headings.
  rewrite opening_match. rewrite opening_absent by exact N.
  rewrite pass1_closing, <- !app_assoc.
  rewrite (@closing_absent _ (lit "## "))
    by (vm_compute; intuition discriminate).
  rewrite pass2_opening. rewrite closing_absent by exact N.
  rewrite closing_match. now rewrite <- !app_assoc.
Qed.

Lemma strip_keeps_absent (x : char) (s : str) : ~ In x s -> ~ In x (strip s).
Proof.
  intros N I. apply N. destruct (strip_spec s) as (front & back & E & _).
  rewrite E. apply in_or_app. right. apply in_or_app. now left.
Qed.

Lemma heading_collapse :
  lit "„Äê COLLAPSE „Äë"
  = opening_bracket ++ lit " COLLAPSE " ++ closing_bracket.
Proof. vm_compute. reflexivity. Qed.

Lemma heading_compression :
  lit "„Äê COMPRESSION „Äë"
  = opening_bracket ++ lit " COMPRESSION " ++ closing_bracket.
Proof. vm_compute. reflexivity. Qed.

Lemma heading_convergence :
  lit "„Äê CONVERGENCE „Äë"
  = opening_bracket ++ lit " CONVERGENCE " ++ closing_bracket.
Proof. vm_compute. reflexivity. Qed.

Lemma marked_collapse :
  lit "## „Äê COLLAPSE „Äë"
  = lit "## " ++ opening_bracket ++ lit " COLLAPSE " ++ closing_bracket.
Proof. vm_compute. reflexivity. Qed.

Lemma marked_compression :
  lit "## „Äê COMPRESSION „Äë"
  = lit "## " ++ opening_bracket ++ lit " COMPRESSION " ++ closing_bracket.
Proof. vm_compute. reflexivity. Qed.

Lemma marked_convergence :
  lit "## „Äê CONVERGENCE „Äë"
  = lit "## " ++ opening_bracket ++ lit " CONVERGENCE " ++ closing_bracket.
Proof. vm_compute. reflexivity. Qed.

Lemma indented_collapse :
  lit "    ## „Äê COLLAPSE „Äë"
  = lit "    " ++ lit "## " ++ opening_bracket ++ lit " COLLAPSE "
      ++ closing_bracket.
Proof. vm_compute. reflexivity. Qed.

Lemma label_plain (s : str) :
  forallb (fun c => negb (N.eqb c bracket_start)) s = true ->
  ~ In bracket_start s.
Proof.
  intros F I. rewrite forallb_forall in F. specialize (F _ I).
  now rewrite N.eqb_refl in F.
Qed.

Section MarkdownExport.
Context {C : Casing}.

Lemma narrative_starts_with_collapse (collapse build now archetype : str) :
  exists rest,
    generate_narrative collapse build now archetype
    = opening_bracket ++ lit " COLLAPSE " ++ closing_bracket ++ rest.
Proof.
  rewrite generate_narrative_join. unfold phase_sections.
  cbn [app join]. unfold collapse_section. rewrite heading_collapse.
  rewrite <- !app_assoc. eexists. reflexivity.
Qed.

Lemma narrative_plain_shape (collapse build now : str) :
  generate_narrative collapse build now []
  = opening_bracket ++ lit " COLLAPSE " ++ closing_bracket
      ++ (nl ++ lit "In the depths of dissolution, you faced the void:" ++ nl)
      ++ strip collapse ++ (nl ++ nl ++ nl)
      ++ opening_bracket ++ lit " COMPRESSION " ++ closing_bracket
      ++ (nl ++ lit "From the fragments, you forged something new:" ++ nl)
      ++ strip build ++ (nl ++ nl ++ nl)
      ++ opening_bracket ++ lit " CONVERGENCE " ++ closing_bracket
      ++ (nl ++ lit "Now, you stand transformed:" ++ nl)
      ++ strip now.
Proof.
  unfold generate_narrative. cbn [truthy join].
  unfold collapse_section, compression_section, convergence_section.
  rewrite heading_collapse, heading_compression, heading_convergence.
  rewrite <- !app_assoc. reflexivity.
Qed.

(** X16: in the Markdown export every narrative starts with the level-two
    heading of its COLLAPSE section, which the document indents by four
    spaces.  For phase texts without the first character of the brackets
    and no archetype, the exported narrative is the narrative with [## ]
    before each of the three headings and one more line break after each;
    text without that character is exported unchanged. *)
Theorem export_marks_headings (collapse build now : str) :
  (forall archetype,
     exists rest,
       processed_narrative (generate_narrative collapse build now archetype)
       = lit "## „Äê COLLAPSE „Äë" ++ nl ++ rest
       /\ forall created_at reflection_id,
            str_in (nl ++ lit "    ## „Äê COLLAPSE „Äë" ++ nl)
                   (md_content
                      (generate_narrative collapse build now archetype)
                      created_at reflection_id) = true)
  /\ (~ In bracket_start collapse -> ~ In bracket_start build ->
      ~ In bracket_start now ->
      processed_narrative (generate_narrative collapse build now [])
      = lit "## „Äê COLLAPSE „Äë" ++ nl ++ nl
          ++ lit "In the depths of dissolution, you faced the void:" ++ nl
          ++ strip collapse ++ nl ++ nl ++ nl
          ++ lit "## „Äê COMPRESSION „Äë" ++ nl ++ nl
          ++ lit "From the fragments, you forged something new:" ++ nl
          ++ strip build ++ nl ++ nl ++ nl
          ++ lit "## „Äê CONVERGENCE „Äë" ++ nl ++ nl
          ++ lit "Now, you stand transformed:" ++ nl ++ strip now)
  /\ (forall s, ~ In bracket_start s -> processed_narrative s = s).
Proof.
  split; [| split; [| exact processed_narrative_plain]].
  - intros archetype.
    destruct (narrative_starts_with_collapse collapse build now archetype)
      as [rest E].
    exists (mark_headings rest).
    assert (P : processed_narrative
                  (generate_narrative collapse build now archetype)
                = lit "## " ++ opening_bracket ++ lit " COLLAPSE "
                    ++ closing_bracket ++ nl ++ mark_headings rest).
    { rewrite E, processed_narrative_mark.
      apply mark_headings_heading. apply label_plain. vm_compute.
      reflexivity. }
    split.
    + rewrite P, marked_collapse. now rewrite <- !app_assoc.
    + intros created_at reflection_id. apply str_in_iff.
      exists (lit "# Reflexion Mirror - Personal Transformation Narrative"
                ++ nl ++ nl ++ lit "Generated: " ++ created_at ++ lit "  "
                ++ nl ++ lit "ID: " ++ reflection_id ++ nl ++ nl ++ lit "---"
                ++ nl).
      exists (mark_headings rest ++ nl ++ nl ++ lit "---" ++ nl ++ nl
                ++ lit "*Generated by Reflexion Mirror - A tool for symbolic identity reflection*"
                ++ nl).
      unfold md_content. rewrite P, indented_collapse.
      now rewrite <- !app_assoc.
  - intros Nc Nb Nn. rewrite processed_narrative_mark.
    apply strip_keeps_absent in Nc, Nb, Nn.
    rewrite narrative_plain_shape.
    rewrite marked_collapse, marked_compression, marked_convergence.
    rewrite mark_headings_heading by (apply label_plain; vm_compute; reflexivity).
    rewrite mark_headings_safe by (apply label_plain; vm_compute; reflexivity).
    rewrite mark_headings_safe by exact Nc.
    rewrite mark_headings_safe by (apply label_plain; vm_compute; reflexivity).
    rewrite mark_headings_heading by (apply label_plain; vm_compute; reflexivity).
    rewrite mark_headings_safe by (apply label_plain; vm_compute; reflexivity).
    rewrite mark_headings_safe by exact Nb.
    rewrite mark_headings_safe by (apply label_plain; vm_compute; reflexivity).
    rewrite mark_headings_heading by (apply label_plain; vm_compute; reflexivity).
    rewrite mark_headings_safe by (apply label_plain; vm_compute; reflexivity).
    rewrite <- (app_nil_r (strip now)) at 1.
    rewrite mark_headings_safe by exact Nn.
    change (mark_headings []) with (@nil char).
    rewrite app_nil_r. now rewrite <- !app_assoc.
Qed.

End MarkdownExport.

Lemma export_marks_headings_witness :
  processed_narrative (generate_narrative (lit " lost ") (lit "built")
                                          (lit "whole") [])
  = lit "## „Äê COLLAPSE „Äë" ++ nl ++ nl
      ++ lit "In the depths of dissolution, you faced the void:" ++ nl
      ++ lit "lost" ++ nl ++ nl ++ nl
      ++ lit "## „Äê COMPRESSION „Äë" ++ nl ++ nl
      ++ lit "From the fragments, you forged something new:" ++ nl
      ++ lit "built" ++ nl ++ nl ++ nl
      ++ lit "## „Äê CONVERGENCE „Äë" ++ nl ++ nl
      ++ lit "Now, you stand transformed:" ++ nl ++ lit "whole".
Proof.
  destruct (@export_marks_headings ascii_casing (lit " lost ") (lit "built")
              (lit "whole")) as (_ & F & _).
  rewrite F; [reflexivity | | |]; vm_compute; intuition discriminate.
Defined.
